(** * T66 golden reference calibration (src/tools/mxt_app/gr.c)

    A shallow embedding of gr.c: the two status printers, the message
    poller [mxt_gr_get_status], the command sequencer [mxt_gr_run_command]
    and the procedure [mxt_store_golden_refs].

    gr.c talks to the chip through libmaxtouch and to the clock through
    libc.  Those functions are not part of gr.c, so what they answer is
    taken as a parameter: a [world] carries the answers the library is
    going to give, in order of the calls, and the trace of what the
    program has done so far.  Every run of the deterministic program
    against any library is a run against some such list of answers. *)

From Stdlib Require Import ZArith List String Ascii Bool Lia.
From Stdlib Require Import DecimalString.
Import ListNotations.
Local Open Scope string_scope.
Local Open Scope Z_scope.

(** ** C integer conversions *)

Definition uint8_t (x : Z) : Z := x mod 256.
Definition uint16_t (x : Z) : Z := x mod 65536.
(** [size_t] on the LP64 hosts the tool is built for. *)
Definition size_t (x : Z) : Z := x mod 2 ^ 64.

(** C truth value of an integer expression. *)
Definition truthy (x : Z) : bool := negb (x =? 0).

(** ** Constants of gr.c *)

Definition GR_CTRL : Z := 0.

Definition GR_ENABLE : Z := Z.shiftl 1 0.
Definition GR_RPTEN : Z := Z.shiftl 1 1.
Definition GR_FCALCMD_PRIME : Z := Z.shiftl 1 2.
Definition GR_FCALCMD_GENERATE : Z := Z.shiftl 1 3.
Definition GR_FCALCMD_STORE : Z := Z.lor GR_FCALCMD_PRIME GR_FCALCMD_GENERATE.
Definition GR_FCALCMD_MASK : Z := GR_FCALCMD_STORE.
Definition GR_TESTONINIT : Z := Z.shiftl 1 4.
Definition GR_TESTONCAL : Z := Z.shiftl 1 5.

Definition GR_STATE_BADSTOREDATA : Z := Z.shiftl 1 0.
Definition GR_STATE_IDLE : Z := 0.
Definition GR_STATE_PRIMED : Z := Z.shiftl 1 1.
Definition GR_STATE_GENERATED : Z := Z.shiftl 1 2.
Definition GR_STATE_FCALSTATE_MASK : Z := Z.lor GR_STATE_PRIMED GR_STATE_GENERATED.
Definition GR_STATE_FCALSEQERR : Z := Z.shiftl 1 3.
Definition GR_STATE_FCALSEQTO : Z := Z.shiftl 1 4.
Definition GR_STATE_FCALSEQDONE : Z := Z.shiftl 1 5.
Definition GR_STATE_FCALPASS : Z := Z.shiftl 1 6.
Definition GR_STATE_FCALFAIL : Z := Z.shiftl 1 7.

Definition GR_TIMEOUT : Z := 30.

(** [sizeof(buf)] for [uint8_t buf[10]]. *)
Definition sizeof_buf : Z := 10.

(** ** printf conversions *)

Definition hex_digit (d : Z) : string :=
  String (nth (Z.to_nat d)
            ["0"; "1"; "2"; "3"; "4"; "5"; "6"; "7";
             "8"; "9"; "A"; "B"; "C"; "D"; "E"; "F"]%char "?"%char) "".

(** [%02X] of a value below 256. *)
Definition fmt_02X (b : Z) : string :=
  hex_digit (b / 16) ++ hex_digit (b mod 16).

(** [%u] *)
Definition fmt_u (n : Z) : string :=
  NilZero.string_of_uint (N.to_uint (Z.to_N n)).

Definition newline : string := String (ascii_of_nat 10) "".

(** ** The world: library answers and the trace *)

Inductive event : Type :=
| EvPrintf (text : string)
| EvLog (text : string)
| EvMsgReset
| EvWriteRegister (data : list Z) (addr : Z) (count : Z)
| EvGetMsgCount (ret : Z)
| EvGetMsgBytes (ret : Z)
| EvSleep (seconds : Z).

Record world : Type := mkWorld {
  clock : Z;                          (* what time(NULL) returns *)
  reset_ret : Z;                      (* answer of mxt_msg_reset *)
  object_table : Z -> Z -> Z;         (* get_object_address *)
  report_ids : Z -> Z;                (* report_id_to_type *)
  write_rets : list Z;                (* answers of mxt_write_register *)
  msg_counts : list Z;                (* answers of mxt_get_msg_count *)
  msg_reads : list (Z * list Z);      (* answers of mxt_get_msg_bytes:
                                         return value, buf afterwards *)
  trace : list event                  (* what the program did, oldest first *)
}.

Definition emit (e : event) (w : world) : world :=
  mkWorld (clock w) (reset_ret w) (object_table w) (report_ids w)
          (write_rets w) (msg_counts w) (msg_reads w) (trace w ++ [e]).

Definition set_clock (t : Z) (w : world) : world :=
  mkWorld t (reset_ret w) (object_table w) (report_ids w)
          (write_rets w) (msg_counts w) (msg_reads w) (trace w).

Definition set_write_rets (l : list Z) (w : world) : world :=
  mkWorld (clock w) (reset_ret w) (object_table w) (report_ids w)
          l (msg_counts w) (msg_reads w) (trace w).

Definition set_msg_counts (l : list Z) (w : world) : world :=
  mkWorld (clock w) (reset_ret w) (object_table w) (report_ids w)
          (write_rets w) l (msg_reads w) (trace w).

Definition set_msg_reads (l : list (Z * list Z)) (w : world) : world :=
  mkWorld (clock w) (reset_ret w) (object_table w) (report_ids w)
          (write_rets w) (msg_counts w) l (trace w).

(** ** Outcomes and the monad of gr.c's functions *)

Inductive outcome (A : Type) : Type :=
| Ret (a : A) (w : world)        (* the function returned [a] *)
| Undefined (w : world)          (* read outside buf or of an unset local *)
| OutOfFuel (w : world).         (* the model's loop bound was reached *)
Arguments Ret {A} a w.
Arguments Undefined {A} w.
Arguments OutOfFuel {A} w.

Definition M (A : Type) : Type := world -> outcome A.

Definition ret {A} (a : A) : M A := fun w => Ret a w.

Definition bind {A B} (m : M A) (k : A -> M B) : M B :=
  fun w =>
    match m w with
    | Ret a w' => k a w'
    | Undefined w' => Undefined w'
    | OutOfFuel w' => OutOfFuel w'
    end.

Notation "x <- m ;; k" := (bind m (fun x => k))
  (at level 61, m at next level, right associativity).
Notation "m ;;; k" := (bind m (fun _ => k))
  (at level 61, right associativity).

Definition world_of {A} (o : outcome A) : world :=
  match o with
  | Ret _ w => w
  | Undefined w => w
  | OutOfFuel w => w
  end.

(** ** libc and libmaxtouch, answered by the world

    The clock is in seconds and moves only while the program sleeps: the
    library calls take no time.  When a list of answers is used up the
    library answers 0: no message queued, nothing read, write done. *)

Definition time : M Z := fun w => Ret (clock w) w.

Definition sleep (seconds : Z) : M unit :=
  fun w => Ret tt (emit (EvSleep seconds) (set_clock (clock w + seconds) w)).

Definition printf (text : string) : M unit :=
  fun w => Ret tt (emit (EvPrintf text) w).

Definition LOG (text : string) : M unit :=
  fun w => Ret tt (emit (EvLog text) w).

Definition mxt_msg_reset : M Z :=
  fun w => Ret (reset_ret w) (emit EvMsgReset w).

Definition get_object_address (object_type instance : Z) : M Z :=
  fun w => Ret (object_table w object_type instance) w.

Definition report_id_to_type (report_id : Z) : M Z :=
  fun w => Ret (report_ids w report_id) w.

Definition mxt_write_register (data : list Z) (addr count : Z) : M Z :=
  fun w =>
    let w1 := emit (EvWriteRegister data addr count) w in
    match write_rets w with
    | [] => Ret 0 w1
    | r :: rest => Ret r (set_write_rets rest w1)
    end.

Definition mxt_get_msg_count : M Z :=
  fun w =>
    match msg_counts w with
    | [] => Ret 0 (emit (EvGetMsgCount 0) w)
    | c :: rest => Ret c (set_msg_counts rest (emit (EvGetMsgCount c) w))
    end.

(** Returns the library's return value and the contents of [buf] after
    the call. *)
Definition mxt_get_msg_bytes (buf : list Z) (buflen : Z) : M (Z * list Z) :=
  fun w =>
    match msg_reads w with
    | [] => Ret (0, buf) (emit (EvGetMsgBytes 0) w)
    | (r, buf') :: rest =>
        Ret (r, buf') (set_msg_reads rest (emit (EvGetMsgBytes r) w))
    end.

(** [buf[i]] for an index inside the array. *)
Definition buf_get (buf : list Z) (i : Z) : Z :=
  uint8_t (nth (Z.to_nat i) buf 0).

(** ** gr.c *)

Section Gr.

(** The object types and the not-found address are macros of libmaxtouch's
    headers; gr.c only names them. *)
Variables SPT_GOLDENREFERENCES_T66 GEN_COMMANDPROCESSOR_T6 OBJECT_NOT_FOUND : Z.

(** The text [mxt_gr_print_t6_state] prints. *)
Definition t6_state_text (state : Z) : string :=
  "T6 status: "
  ++ (if truthy (Z.land state 4) then "COMSERR " else "")
  ++ (if truthy (Z.land state 8) then "CFGERR " else "")
  ++ (if truthy (Z.land state 16) then "CAL " else "")
  ++ (if truthy (Z.land state 32) then "SIGERR " else "")
  ++ (if truthy (Z.land state 64) then "OFL " else "")
  ++ (if truthy (Z.land state 128) then "RESET " else "")
  ++ newline.

Definition mxt_gr_print_t6_state (state : Z) : M unit :=
  printf (t6_state_text state).

(** The text [mxt_gr_print_state] prints. *)
Definition t66_state_text (state : Z) : string :=
  "T66 state: " ++ fmt_02X state ++ " "
  ++ (if truthy (Z.land state GR_STATE_FCALFAIL) then "FCALFAIL " else "")
  ++ (if truthy (Z.land state GR_STATE_FCALPASS) then "FCALPASS " else "")
  ++ (if truthy (Z.land state GR_STATE_FCALSEQDONE) then "FCALSEQDONE " else "")
  ++ (if truthy (Z.land state GR_STATE_FCALSEQTO) then "FCALSEQTO " else "")
  ++ (if truthy (Z.land state GR_STATE_FCALSEQERR) then "FCALSEQERR " else "")
  ++ (if Z.land state GR_STATE_FCALSTATE_MASK =? GR_STATE_IDLE
      then "Idle " else "")
  ++ (if Z.land state GR_STATE_FCALSTATE_MASK =? GR_STATE_GENERATED
      then "Generated " else "")
  ++ (if Z.land state GR_STATE_FCALSTATE_MASK =? GR_STATE_PRIMED
      then "Primed " else "")
  ++ (if truthy (Z.land state GR_STATE_BADSTOREDATA) then "BADSTOREDATA " else "")
  ++ newline.

Definition mxt_gr_print_state (state : Z) : M unit :=
  printf (t66_state_text state).

(** [for (byte = 1; byte < len; byte++) printf("%02X ", buf[byte]);]
    called with [steps = sizeof(buf)]: the loop either ends or leaves the
    array within that many rounds. *)
Fixpoint print_msg_bytes (steps : nat) (byte len : Z) (buf : list Z) : M unit :=
  if byte <? len then
    if byte <? sizeof_buf then
      match steps with
      | O => fun w => OutOfFuel w
      | S n =>
          printf (fmt_02X (buf_get buf byte) ++ " ") ;;;
          print_msg_bytes n (uint16_t (byte + 1)) len buf
      end
    else fun w => Undefined w
  else ret tt.

(** One round of the [for (i = 0; i < count; i++)] loop.  [Some state]:
    the function returns 0 with [*state] set; [None]: the loop goes on.
    The second component is [buf] after the round. *)
Definition read_one_message (buf : list Z) : M (option Z * list Z) :=
  r <- mxt_get_msg_bytes buf sizeof_buf ;;
  let len := size_t (fst r) in
  let buf := snd r in
  if len >? 0 then
    object_type <- report_id_to_type (buf_get buf 0) ;;
    LOG ("Received message from T" ++ fmt_u object_type) ;;;
    if object_type =? SPT_GOLDENREFERENCES_T66 then
      print_msg_bytes (Z.to_nat sizeof_buf) 1 len buf ;;;
      printf newline ;;;
      let state := buf_get buf 1 in
      mxt_gr_print_state state ;;;
      ret (Some state, buf)
    else if object_type =? GEN_COMMANDPROCESSOR_T6 then
      mxt_gr_print_t6_state (buf_get buf 1) ;;;
      ret (None, buf)
    else ret (None, buf)
  else ret (None, buf).

(** [for (i = 0; i < count; i++)], with [n] the rounds still to run:
    [i] is a counter only, and [count <= 65535] keeps it from wrapping. *)
Fixpoint drain_messages (n : nat) (buf : list Z) : M (option Z * list Z) :=
  match n with
  | O => ret (None, buf)
  | S n' =>
      r <- read_one_message buf ;;
      match fst r with
      | Some state => ret r
      | None => drain_messages n' (snd r)
      end
  end.

(** The [while (true)] loop; [fuel] bounds its rounds.  Returns the int
    result and [*state] ([None] while unset). *)
Fixpoint mxt_gr_get_status_loop (fuel : nat) (start_time timeout_seconds : Z)
    (buf : list Z) : M (Z * option Z) :=
  match fuel with
  | O => fun w => OutOfFuel w
  | S fuel' =>
      now <- time ;;
      if now - start_time >? timeout_seconds then
        printf ("Timeout" ++ newline) ;;;
        ret (-1, None)
      else
        c <- mxt_get_msg_count ;;
        let count := uint16_t c in
        r <- (if count >? 0 then drain_messages (Z.to_nat count) buf
              else ret (None, buf)) ;;
        match fst r with
        | Some state => ret (0, Some state)
        | None =>
            sleep 1 ;;;
            mxt_gr_get_status_loop fuel' start_time timeout_seconds (snd r)
        end
  end.

(** [buf] is not initialised in C; no round reads it before
    [mxt_get_msg_bytes] has filled it. *)
Definition mxt_gr_get_status (fuel : nat) (timeout_seconds : Z)
  : M (Z * option Z) :=
  start_time <- time ;;
  mxt_gr_get_status_loop fuel start_time timeout_seconds [].

(** The test of [mxt_gr_run_command] on the state the poller returned. *)
Definition entered_state (actual_state wanted_fcal_state wanted_statebit : Z)
  : bool :=
  (Z.land actual_state GR_STATE_FCALSTATE_MASK =? wanted_fcal_state)
  && truthy (Z.land actual_state wanted_statebit).

(** Lines 166-169 of [mxt_gr_run_command]: compose the command byte and
    write it to the control register. *)
Definition write_command (addr cmd : Z) : M Z :=
  let cmd := uint8_t (Z.lor cmd (Z.lor GR_ENABLE GR_RPTEN)) in
  LOG ("Writing " ++ fmt_u cmd ++ " to ctrl register") ;;;
  mxt_write_register [cmd] (addr + GR_CTRL) 1.

(** [actual_state] is a local that only [mxt_gr_get_status] sets. *)
Definition mxt_gr_run_command (fuel : nat)
    (addr cmd wanted_fcal_state wanted_statebit : Z) : M Z :=
  ret1 <- write_command addr cmd ;;
  if ret1 <? 0 then ret ret1 else
  r <- mxt_gr_get_status fuel GR_TIMEOUT ;;
  if fst r <? 0 then ret (fst r) else
  match snd r with
  | None => fun w => Undefined w
  | Some actual_state =>
      if entered_state actual_state wanted_fcal_state wanted_statebit
      then ret 0
      else
        printf ("Failed to enter correct state" ++ newline) ;;;
        ret (-1)
  end.

Definition mxt_store_golden_refs (fuel : nat) : M Z :=
  ret0 <- mxt_msg_reset ;;
  if ret0 <? 0 then ret ret0 else
  a <- get_object_address SPT_GOLDENREFERENCES_T66 0 ;;
  let addr := uint16_t a in
  if addr =? OBJECT_NOT_FOUND then ret (-1) else
  printf ("Priming" ++ newline) ;;;
  ret1 <- mxt_gr_run_command fuel addr GR_FCALCMD_PRIME
            GR_STATE_PRIMED GR_STATE_PRIMED ;;
  if ret1 <? 0 then ret ret1 else
  printf ("Generating" ++ newline) ;;;
  ret2 <- mxt_gr_run_command fuel addr GR_FCALCMD_GENERATE
            GR_STATE_GENERATED GR_STATE_FCALPASS ;;
  if ret2 <? 0 then ret ret2 else
  printf ("Storing" ++ newline) ;;;
  ret3 <- mxt_gr_run_command fuel addr GR_FCALCMD_STORE
            GR_STATE_IDLE GR_STATE_FCALSEQDONE ;;
  if ret3 <? 0 then ret ret3 else
  printf ("Done" ++ newline) ;;;
  ret 0.

End Gr.

(** ** Reading a trace *)

(** The register writes of a trace: byte written, address, length. *)
Fixpoint writes (tr : list event) : list (list Z * Z * Z) :=
  match tr with
  | [] => []
  | EvWriteRegister data addr count :: rest => (data, addr, count) :: writes rest
  | _ :: rest => writes rest
  end.

(** What went to stdout. *)
Fixpoint stdout (tr : list event) : list string :=
  match tr with
  | [] => []
  | EvPrintf text :: rest => text :: stdout rest
  | _ :: rest => stdout rest
  end.

(** Rounds of the poll loop that got as far as asking for the count. *)
Fixpoint drains (tr : list event) : Z :=
  match tr with
  | [] => 0
  | EvGetMsgCount _ :: rest => 1 + drains rest
  | _ :: rest => drains rest
  end.

(** Messages the library announced, as the program's [uint16_t count]
    saw them. *)
Fixpoint announced (tr : list event) : Z :=
  match tr with
  | [] => 0
  | EvGetMsgCount c :: rest => uint16_t c + announced rest
  | _ :: rest => announced rest
  end.

(** Calls of [mxt_get_msg_bytes]. *)
Fixpoint reads (tr : list event) : Z :=
  match tr with
  | [] => 0
  | EvGetMsgBytes _ :: rest => 1 + reads rest
  | _ :: rest => reads rest
  end.

(** Seconds slept. *)
Fixpoint slept (tr : list event) : Z :=
  match tr with
  | [] => 0
  | EvSleep s :: rest => s + slept rest
  | _ :: rest => slept rest
  end.

(** A read answer that the poller takes for a T66 message. *)
Definition is_t66_read (T66 : Z) (w : world) (rd : Z * list Z) : bool :=
  (size_t (fst rd) >? 0) && (report_ids w (buf_get (snd rd) 0) =? T66).

(** ** A bench device

    Object T66 sits at address 300 and reports under id 9; T6 reports
    under id 1.  A message is the report id followed by the status
    byte. *)

Definition bench_report_ids (report_id : Z) : Z :=
  if report_id =? 9 then 66 else if report_id =? 1 then 6 else 0.

Definition bench_object_table (object_type instance : Z) : Z :=
  if (object_type =? 66) && (instance =? 0) then 300 else 0.

Definition t66_msg (status : Z) : Z * list Z :=
  (2, [9; status; 0; 0; 0; 0; 0; 0; 0; 0]).

Definition t6_msg (status : Z) : Z * list Z :=
  (2, [1; status; 0; 0; 0; 0; 0; 0; 0; 0]).

Definition bench (counts : list Z) (msgs : list (Z * list Z)) : world :=
  mkWorld 1000 0 bench_object_table bench_report_ids [] counts msgs [].

(** A device without the T66 object. *)
Definition bench_no_t66 : world :=
  mkWorld 1000 0 (fun _ _ => 0) bench_report_ids [] [] [] [].

Definition run_bench (fuel : nat) (w : world) : outcome Z :=
  mxt_store_golden_refs 66 6 0 fuel w.

(** ** The status byte as the specification words it *)

Inductive phase : Type := Idle | Primed | Generated | Reserved.

Record CalibrationState : Type := mkCalibrationState {
  badStoredData : bool;
  fcalPhase : phase;
  sequenceError : bool;
  sequenceTimeout : bool;
  sequenceDone : bool;
  fcalPass : bool;
  fcalFail : bool
}.

(** Bits 1-2 read as a two-bit number: 00, 01, 10, 11. *)
Definition spec_phase (bit2 bit1 : bool) : phase :=
  match bit2, bit1 with
  | false, false => Idle
  | false, true => Primed
  | true, false => Generated
  | true, true => Reserved
  end.

(** The decoder of section 4.1 of the specification, bit by bit. *)
Definition spec_decodeCalibrationState (b : Z) : CalibrationState :=
  mkCalibrationState
    (Z.testbit b 0)
    (spec_phase (Z.testbit b 2) (Z.testbit b 1))
    (Z.testbit b 3) (Z.testbit b 4) (Z.testbit b 5)
    (Z.testbit b 6) (Z.testbit b 7).

(** The words [mxt_gr_print_state] prints for a decoded state. *)
Definition state_words (st : CalibrationState) : string :=
  (if fcalFail st then "FCALFAIL " else "")
  ++ (if fcalPass st then "FCALPASS " else "")
  ++ (if sequenceDone st then "FCALSEQDONE " else "")
  ++ (if sequenceTimeout st then "FCALSEQTO " else "")
  ++ (if sequenceError st then "FCALSEQERR " else "")
  ++ match fcalPhase st with
     | Idle => "Idle "
     | Generated => "Generated "
     | Primed => "Primed "
     | Reserved => ""
     end
  ++ (if badStoredData st then "BADSTOREDATA " else "").

(** The phase the program's comparisons with the three state constants
    single out. *)
Definition code_phase (state : Z) : phase :=
  let fcal := Z.land state GR_STATE_FCALSTATE_MASK in
  if fcal =? GR_STATE_IDLE then Idle
  else if fcal =? GR_STATE_GENERATED then Generated
  else if fcal =? GR_STATE_PRIMED then Primed
  else Reserved.

(** All bytes. *)
Definition all_bytes : list Z := map Z.of_nat (seq 0 256).

(** The check behind the byte-by-byte part of the decoder theorem. *)
Definition decode_agrees (b : Z) : bool :=
  let st := spec_decodeCalibrationState b in
  Bool.eqb (truthy (Z.land b GR_STATE_BADSTOREDATA)) (badStoredData st)
  && Bool.eqb (truthy (Z.land b GR_STATE_FCALSEQERR)) (sequenceError st)
  && Bool.eqb (truthy (Z.land b GR_STATE_FCALSEQTO)) (sequenceTimeout st)
  && Bool.eqb (truthy (Z.land b GR_STATE_FCALSEQDONE)) (sequenceDone st)
  && Bool.eqb (truthy (Z.land b GR_STATE_FCALPASS)) (fcalPass st)
  && Bool.eqb (truthy (Z.land b GR_STATE_FCALFAIL)) (fcalFail st)
  && match code_phase b, fcalPhase st with
     | Idle, Idle | Primed, Primed | Generated, Generated
     | Reserved, Reserved => true
     | _, _ => false
     end
  && String.eqb (t66_state_text b)
       ("T66 state: " ++ fmt_02X b ++ " " ++ state_words st ++ newline).

(** ** Frames: what a piece of the program leaves alone *)

(** [m] keeps the relation [R] between the world it starts in and the
    world it ends in, however it ends. *)
Definition preserves (R : world -> world -> Prop) {A} (m : M A) : Prop :=
  forall w, R w (world_of (m w)).

(** Nothing but text was added to the trace. *)
Definition text_event (e : event) : bool :=
  match e with
  | EvPrintf _ | EvLog _ => true
  | _ => false
  end.

Record silent (w w' : world) : Prop := mkSilent {
  silent_trace : exists d, trace w' = (trace w ++ d)%list /\ forallb text_event d = true;
  silent_clock : clock w' = clock w;
  silent_reset_ret : reset_ret w' = reset_ret w;
  silent_object_table : object_table w' = object_table w;
  silent_report_ids : report_ids w' = report_ids w;
  silent_write_rets : write_rets w' = write_rets w;
  silent_msg_counts : msg_counts w' = msg_counts w;
  silent_msg_reads : msg_reads w' = msg_reads w
}.

(** Inside one drain: messages are read and text is printed; the clock,
    the registers and the count answers are left alone. *)
Record steady (w w' : world) : Prop := mkSteady {
  steady_clock : clock w' = clock w;
  steady_report_ids : report_ids w' = report_ids w;
  steady_msg_reads : exists pre, msg_reads w = (pre ++ msg_reads w')%list;
  steady_writes : writes (trace w') = writes (trace w);
  steady_drains : drains (trace w') = drains (trace w);
  steady_announced : announced (trace w') = announced (trace w);
  steady_slept : slept (trace w') = slept (trace w)
}.

(** The whole poll: no register is written, the report-id table stays,
    read answers are only consumed. *)
Record polling (w w' : world) : Prop := mkPolling {
  polling_report_ids : report_ids w' = report_ids w;
  polling_msg_reads : exists pre, msg_reads w = (pre ++ msg_reads w')%list;
  polling_writes : writes (trace w') = writes (trace w)
}.

(** [m] never stops on the model's loop bound. *)
Definition terminates {A} (m : M A) : Prop :=
  forall w, match m w with OutOfFuel _ => False | _ => True end.

(** No read answer left in [w] is one the poller takes for a T66
    message. *)
Definition quiet (T66 : Z) (w : world) : bool :=
  forallb (fun rd => negb (is_t66_read T66 w rd)) (msg_reads w).

(** The last line on stdout. *)
Definition last_line (w : world) : string := last (stdout (trace w)) "".

(** ** More ways to read worlds and messages *)

(** Every read answer still to come fits [buf]. *)
Definition well_sized (w : world) : bool :=
  forallb (fun rd => size_t (fst rd) <=? sizeof_buf) (msg_reads w).

(** What the poller prints for a read it does not take for a T66
    message: the T6 status line, or nothing. *)
Definition skipped_text (T6 : Z) (w : world) (rd : Z * list Z) : list string :=
  if (size_t (fst rd) >? 0) && (report_ids w (buf_get (snd rd) 0) =? T6)
  then [t6_state_text (buf_get (snd rd) 1)]
  else [].

(** The payload bytes of a message of [len] bytes, as the poller prints
    them. *)
Definition msg_bytes_text (len : Z) (buf : list Z) : list string :=
  map (fun i => fmt_02X (buf_get buf (Z.of_nat i)) ++ " ")
      (seq 1 (Z.to_nat len - 1)).

(** Read answers are only consumed. *)
Definition reads_suffix (w w' : world) : Prop :=
  exists pre, msg_reads w = (pre ++ msg_reads w')%list.

(** [m] never reads outside [buf] when started in [w]. *)
Definition in_bounds {A} (o : outcome A) : Prop :=
  match o with Undefined _ => False | _ => True end.

(** The three register writes of the procedure, at the control register
    of the object at [addr]. *)
Definition golden_ref_commands (addr : Z) : list (list Z * Z * Z) :=
  [([7], addr + GR_CTRL, 1); ([11], addr + GR_CTRL, 1); ([15], addr + GR_CTRL, 1)].

(** The checks of the three phases on a decoded state. *)
Definition phase_checks_agree (s : Z) : bool :=
  let st := spec_decodeCalibrationState s in
  Bool.eqb (entered_state s GR_STATE_PRIMED GR_STATE_PRIMED)
           (match fcalPhase st with Primed => true | _ => false end)
  && Bool.eqb (entered_state s GR_STATE_GENERATED GR_STATE_FCALPASS)
              (match fcalPhase st with Generated => fcalPass st | _ => false end)
  && Bool.eqb (entered_state s GR_STATE_IDLE GR_STATE_FCALSEQDONE)
              (match fcalPhase st with Idle => sequenceDone st | _ => false end).


(** * Properties *)

(** ** Reading traces *)

Lemma writes_app (a b : list event) : writes (a ++ b) = (writes a ++ writes b)%list.
Proof. induction a as [|[] a IH]; simpl; rewrite ?IH; reflexivity. Qed.

Lemma stdout_app (a b : list event) : stdout (a ++ b) = (stdout a ++ stdout b)%list.
Proof. induction a as [|[] a IH]; simpl; rewrite ?IH; reflexivity. Qed.

Lemma drains_app (a b : list event) : drains (a ++ b) = drains a + drains b.
Proof. induction a as [|[] a IH]; cbn [drains app]; rewrite ?IH; lia. Qed.

Lemma announced_app (a b : list event) : announced (a ++ b) = announced a + announced b.
Proof. induction a as [|[] a IH]; cbn [announced app]; rewrite ?IH; lia. Qed.

Lemma reads_app (a b : list event) : reads (a ++ b) = reads a + reads b.
Proof. induction a as [|[] a IH]; cbn [reads app]; rewrite ?IH; lia. Qed.

Lemma slept_app (a b : list event) : slept (a ++ b) = slept a + slept b.
Proof. induction a as [|[] a IH]; cbn [slept app]; rewrite ?IH; lia. Qed.

Lemma text_only (d : list event) :
  forallb text_event d = true ->
  writes d = [] /\ drains d = 0 /\ announced d = 0 /\ reads d = 0 /\ slept d = 0.
Proof.
  induction d as [|e d IH]; simpl; [tauto|].
  intros H. apply andb_true_iff in H. destruct H as [He Hd].
  destruct e; simpl in He; try discriminate; auto.
Qed.

(** ** The monad *)

Lemma world_of_bind {A B} (m : M A) (k : A -> M B) (w : world) :
  world_of (bind m k w) =
  match m w with
  | Ret a w1 => world_of (k a w1)
  | Undefined w1 => w1
  | OutOfFuel w1 => w1
  end.
Proof. unfold bind. destruct (m w); reflexivity. Qed.

Lemma bind_Ret {A B} (m : M A) (k : A -> M B) (w w1 : world) (a : A) :
  m w = Ret a w1 -> bind m k w = k a w1.
Proof. unfold bind. intros ->. reflexivity. Qed.

Lemma bind_Ret_inv {A B} (m : M A) (k : A -> M B) (w w' : world) (b : B) :
  bind m k w = Ret b w' ->
  exists a w1, m w = Ret a w1 /\ k a w1 = Ret b w'.
Proof.
  unfold bind. destruct (m w) as [a w1|w1|w1]; try discriminate.
  intros H. exists a, w1. split; [reflexivity|exact H].
Qed.

Section Preserves.

Variable R : world -> world -> Prop.
Hypothesis R_refl : forall w, R w w.
Hypothesis R_trans : forall a b c, R a b -> R b c -> R a c.

Lemma preserves_ret {A} (a : A) : preserves R (ret a).
Proof. intros w. apply R_refl. Qed.

Lemma preserves_undefined {A} : preserves R (fun w => @Undefined A w).
Proof. intros w. apply R_refl. Qed.

Lemma preserves_out_of_fuel {A} : preserves R (fun w => @OutOfFuel A w).
Proof. intros w. apply R_refl. Qed.

Lemma preserves_bind {A B} (m : M A) (k : A -> M B) :
  preserves R m -> (forall a, preserves R (k a)) -> preserves R (bind m k).
Proof.
  intros Hm Hk w. rewrite world_of_bind.
  specialize (Hm w). destruct (m w) as [a w1|w1|w1]; simpl in Hm; auto.
  eapply R_trans; [exact Hm|apply Hk].
Qed.

End Preserves.

(** ** The three frames are preorders, each inside the next *)

Lemma silent_refl w : silent w w.
Proof. split; auto. exists []. rewrite app_nil_r. auto. Qed.

Lemma silent_trans a b c : silent a b -> silent b c -> silent a c.
Proof.
  intros [[d1 [T1 F1]] ? ? ? ? ? ? ?] [[d2 [T2 F2]] ? ? ? ? ? ? ?].
  split; try congruence.
  exists (d1 ++ d2)%list. split.
  - rewrite T2, T1, app_assoc. reflexivity.
  - rewrite forallb_app, F1, F2. reflexivity.
Qed.

Lemma silent_counts w w' :
  silent w w' ->
  writes (trace w') = writes (trace w) /\ drains (trace w') = drains (trace w)
  /\ announced (trace w') = announced (trace w)
  /\ reads (trace w') = reads (trace w) /\ slept (trace w') = slept (trace w).
Proof.
  intros [[d [T F]] _ _ _ _ _ _ _]. rewrite T.
  rewrite writes_app, drains_app, announced_app, reads_app, slept_app.
  destruct (text_only d F) as (-> & -> & -> & -> & ->).
  rewrite app_nil_r. repeat split; lia.
Qed.

Lemma silent_steady w w' : silent w w' -> steady w w'.
Proof.
  intros H. destruct (silent_counts _ _ H) as (? & ? & ? & ? & ?).
  destruct H. split; auto. exists []. simpl. congruence.
Qed.

Lemma steady_refl w : steady w w.
Proof. apply silent_steady, silent_refl. Qed.

Lemma steady_trans a b c : steady a b -> steady b c -> steady a c.
Proof.
  intros [? ? [p1 P1] ? ? ? ?] [? ? [p2 P2] ? ? ? ?].
  split; try congruence.
  exists (p1 ++ p2)%list. rewrite P1, P2, app_assoc. reflexivity.
Qed.

Lemma steady_polling w w' : steady w w' -> polling w w'.
Proof. intros []. split; auto. Qed.

Lemma polling_refl w : polling w w.
Proof. apply steady_polling, steady_refl. Qed.

Lemma polling_trans a b c : polling a b -> polling b c -> polling a c.
Proof.
  intros [? [p1 P1] ?] [? [p2 P2] ?].
  split; try congruence.
  exists (p1 ++ p2)%list. rewrite P1, P2, app_assoc. reflexivity.
Qed.

(** ** What the library calls leave alone *)

Lemma preserves_weaken (R R' : world -> world -> Prop) {A} (m : M A) :
  (forall w w', R w w' -> R' w w') -> preserves R m -> preserves R' m.
Proof. intros HR Hm w. apply HR, Hm. Qed.

Lemma silent_emit_text (e : event) (w : world) :
  text_event e = true -> silent w (emit e w).
Proof.
  intros He. split; try reflexivity.
  exists [e]. simpl. rewrite He. auto.
Qed.

Lemma silent_printf text : preserves silent (printf text).
Proof. intros w. apply silent_emit_text. reflexivity. Qed.

Lemma silent_LOG text : preserves silent (LOG text).
Proof. intros w. apply silent_emit_text. reflexivity. Qed.

Lemma silent_time : preserves silent time.
Proof. intros w. apply silent_refl. Qed.

Lemma silent_report_id_to_type id : preserves silent (report_id_to_type id).
Proof. intros w. apply silent_refl. Qed.

Lemma silent_get_object_address ty inst :
  preserves silent (get_object_address ty inst).
Proof. intros w. apply silent_refl. Qed.

Lemma steady_mxt_get_msg_bytes buf len :
  preserves steady (mxt_get_msg_bytes buf len).
Proof.
  intros w. unfold mxt_get_msg_bytes.
  destruct (msg_reads w) as [|[r b] rest] eqn:E; simpl.
  - split; simpl; rewrite ?writes_app, ?drains_app, ?announced_app, ?slept_app;
      simpl; rewrite ?app_nil_r; try lia; auto.
    exists []. auto.
  - split; simpl; rewrite ?writes_app, ?drains_app, ?announced_app, ?slept_app;
      simpl; rewrite ?app_nil_r; try lia; auto.
    exists [(r, b)]. auto.
Qed.

Lemma polling_mxt_get_msg_count : preserves polling mxt_get_msg_count.
Proof.
  intros w. unfold mxt_get_msg_count.
  destruct (msg_counts w) as [|c rest]; simpl;
    (split; simpl; rewrite ?writes_app; simpl; rewrite ?app_nil_r; auto;
     exists []; auto).
Qed.

Lemma polling_sleep s : preserves polling (sleep s).
Proof.
  intros w. split; simpl; rewrite ?writes_app; simpl; rewrite ?app_nil_r; auto.
  exists []. auto.
Qed.

Lemma silent_bind {A B} (m : M A) (k : A -> M B) :
  preserves silent m -> (forall a, preserves silent (k a)) ->
  preserves silent (bind m k).
Proof. apply preserves_bind, silent_trans. Qed.

Lemma steady_bind {A B} (m : M A) (k : A -> M B) :
  preserves steady m -> (forall a, preserves steady (k a)) ->
  preserves steady (bind m k).
Proof. apply preserves_bind, steady_trans. Qed.

Lemma polling_bind {A B} (m : M A) (k : A -> M B) :
  preserves polling m -> (forall a, preserves polling (k a)) ->
  preserves polling (bind m k).
Proof. apply preserves_bind, polling_trans. Qed.

Lemma steady_of_silent {A} (m : M A) : preserves silent m -> preserves steady m.
Proof. apply preserves_weaken, silent_steady. Qed.

Lemma polling_of_steady {A} (m : M A) : preserves steady m -> preserves polling m.
Proof. apply preserves_weaken, steady_polling. Qed.

Create HintDb frames.
#[local] Hint Resolve silent_refl steady_refl polling_refl
  silent_printf silent_LOG silent_time silent_report_id_to_type
  silent_get_object_address steady_mxt_get_msg_bytes
  polling_mxt_get_msg_count polling_sleep : frames.

(** Walks through a piece of the program, one bind or branch at a time. *)
Ltac frame :=
  repeat first
    [ progress intros
    | solve [auto with frames]
    | apply silent_bind | apply steady_bind | apply polling_bind
    | apply preserves_ret; auto with frames
    | apply preserves_undefined; auto with frames
    | apply preserves_out_of_fuel; auto with frames
    | match goal with
      | |- preserves _ (if ?c then _ else _) => destruct c
      | |- preserves _ (match ?x with Some _ => _ | None => _ end) => destruct x
      | |- preserves _ (let _ := _ in _) => cbv zeta
      end
    | solve [apply steady_of_silent; auto with frames]
    | solve [apply polling_of_steady; auto with frames]
    | solve [apply polling_of_steady, steady_of_silent; auto with frames] ].

Section GrFrames.

Variables T66 T6 : Z.

Lemma silent_print_state state : preserves silent (mxt_gr_print_state state).
Proof. apply silent_printf. Qed.

Lemma silent_print_t6_state state : preserves silent (mxt_gr_print_t6_state state).
Proof. apply silent_printf. Qed.

Lemma silent_print_msg_bytes steps :
  forall byte len buf, preserves silent (print_msg_bytes steps byte len buf).
Proof.
  induction steps as [|n IH]; intros byte len buf; simpl;
    destruct (byte <? len); destruct (byte <? sizeof_buf); frame.
Qed.

#[local] Hint Resolve silent_print_state silent_print_t6_state
  silent_print_msg_bytes : frames.

Lemma steady_read_one_message buf :
  preserves steady (read_one_message T66 T6 buf).
Proof. unfold read_one_message. frame. Qed.

#[local] Hint Resolve steady_read_one_message : frames.

Lemma steady_drain_messages n :
  forall buf, preserves steady (drain_messages T66 T6 n buf).
Proof.
  induction n as [|n IH]; intros buf; simpl; frame.
Qed.

#[local] Hint Resolve steady_drain_messages : frames.

Lemma polling_get_status_loop fuel :
  forall start_time timeout buf,
    preserves polling (mxt_gr_get_status_loop T66 T6 fuel start_time timeout buf).
Proof.
  induction fuel as [|n IH]; intros st to buf; simpl; frame.
Qed.

Lemma polling_get_status fuel timeout :
  preserves polling (mxt_gr_get_status T66 T6 fuel timeout).
Proof.
  unfold mxt_gr_get_status. frame. apply polling_get_status_loop.
Qed.

End GrFrames.

#[local] Hint Resolve silent_print_state silent_print_t6_state
  silent_print_msg_bytes steady_read_one_message steady_drain_messages
  polling_get_status_loop polling_get_status : frames.

(** ** Bytes *)

Lemma all_bytes_In (b : Z) : 0 <= b < 256 -> In b all_bytes.
Proof.
  intros H. unfold all_bytes. apply in_map_iff.
  exists (Z.to_nat b). split; [lia|]. apply in_seq. lia.
Qed.

Lemma for_all_bytes (P : Z -> bool) :
  forallb P all_bytes = true -> forall b, 0 <= b < 256 -> P b = true.
Proof.
  intros H b Hb. rewrite forallb_forall in H. apply H, all_bytes_In, Hb.
Qed.

Lemma uint8_lor_enable (cmd : Z) :
  0 <= cmd < 256 ->
  uint8_t (Z.lor cmd (Z.lor GR_ENABLE GR_RPTEN)) = Z.lor cmd 3.
Proof.
  intros H.
  apply (for_all_bytes
           (fun c => uint8_t (Z.lor c (Z.lor GR_ENABLE GR_RPTEN)) =? Z.lor c 3))
    in H; [apply Z.eqb_eq, H | vm_compute; reflexivity].
Qed.

Section GrSequencer.

Variables T66 T6 ONF : Z.

Local Abbreviation get_status := (mxt_gr_get_status T66 T6).
Local Abbreviation run_command := (mxt_gr_run_command T66 T6).
Local Abbreviation store_golden_refs := (mxt_store_golden_refs T66 T6 ONF).

(** ** The sequencer *)

Lemma write_command_world addr cmd w :
  exists r w1,
    write_command addr cmd w = Ret r w1
    /\ trace w1 =
       (trace w ++
        [EvLog ("Writing "
                ++ fmt_u (uint8_t (Z.lor cmd (Z.lor GR_ENABLE GR_RPTEN)))
                ++ " to ctrl register");
         EvWriteRegister [uint8_t (Z.lor cmd (Z.lor GR_ENABLE GR_RPTEN))]
                         (addr + GR_CTRL) 1])%list.
Proof.
  unfold write_command, bind, LOG, mxt_write_register. simpl.
  destruct (write_rets w) as [|r rest]; simpl;
    eexists; eexists; (split; [reflexivity|]); simpl;
    rewrite <- app_assoc; reflexivity.
Qed.

Lemma write_command_writes addr cmd w r w1 :
  write_command addr cmd w = Ret r w1 ->
  writes (trace w1) =
  (writes (trace w)
   ++ [([uint8_t (Z.lor cmd (Z.lor GR_ENABLE GR_RPTEN))], addr + GR_CTRL, 1)])%list.
Proof.
  intros H. destruct (write_command_world addr cmd w) as (r' & w1' & E & T).
  rewrite E in H. injection H as _ <-. rewrite T, writes_app. reflexivity.
Qed.

(** What [mxt_gr_run_command] does once the write went through and the
    poller handed back a state. *)
Lemma run_command_after_poll fuel addr cmd wf wb w r1 w1 s w2 :
  write_command addr cmd w = Ret r1 w1 -> 0 <= r1 ->
  get_status fuel GR_TIMEOUT w1 = Ret (0, Some s) w2 ->
  run_command fuel addr cmd wf wb w =
  if entered_state s wf wb then Ret 0 w2
  else Ret (-1) (emit (EvPrintf ("Failed to enter correct state" ++ newline)) w2).
Proof.
  intros Hw Hr Hp. unfold mxt_gr_run_command.
  rewrite (bind_Ret _ _ _ _ _ Hw).
  destruct (r1 <? 0) eqn:E; [apply Z.ltb_lt in E; lia|].
  rewrite (bind_Ret _ _ _ _ _ Hp). simpl.
  destruct (entered_state s wf wb); reflexivity.
Qed.

Lemma entered_state_spec s wf wb :
  entered_state s wf wb = true <-> Z.land s 6 = wf /\ Z.land s wb <> 0.
Proof.
  unfold entered_state, truthy.
  rewrite andb_true_iff, Z.eqb_eq, negb_true_iff, Z.eqb_neq. reflexivity.
Qed.

(** The one register write of a command. *)
Lemma run_command_writes fuel addr cmd wf wb w :
  writes (trace (world_of (run_command fuel addr cmd wf wb w))) =
  (writes (trace w)
   ++ [([uint8_t (Z.lor cmd (Z.lor GR_ENABLE GR_RPTEN))], addr + GR_CTRL, 1)])%list.
Proof.
  destruct (write_command_world addr cmd w) as (r & w1 & E & T).
  rewrite <- (write_command_writes _ _ _ _ _ E).
  unfold mxt_gr_run_command. rewrite world_of_bind, E.
  destruct (r <? 0); [reflexivity|].
  apply polling_writes.
  generalize w1. change (preserves polling
    (r0 <- get_status fuel GR_TIMEOUT ;;
     if fst r0 <? 0 then ret (fst r0) else
     match snd r0 with
     | None => fun w => Undefined w
     | Some actual_state =>
         if entered_state actual_state wf wb then ret 0
         else printf ("Failed to enter correct state" ++ newline) ;;; ret (-1)
     end)).
  frame.
Qed.

Lemma run_command_Ret_writes fuel addr cmd wf wb w r w' :
  run_command fuel addr cmd wf wb w = Ret r w' ->
  writes (trace w') =
  (writes (trace w)
   ++ [([uint8_t (Z.lor cmd (Z.lor GR_ENABLE GR_RPTEN))], addr + GR_CTRL, 1)])%list.
Proof.
  intros H. rewrite <- (run_command_writes fuel addr cmd wf wb w), H. reflexivity.
Qed.

End GrSequencer.

(** * The claims *)

(** C2. For every byte, the flags [mxt_gr_print_state] tests are the bits
    of the documented layout: bit0 badStoredData, bits 1-2 the phase
    (00 Idle, 01 Primed, 10 Generated, 11 reserved), bit3 sequenceError,
    bit4 sequenceTimeout, bit5 sequenceDone, bit6 fcalPass, bit7 fcalFail;
    the phase is one of the four values, and printing a byte gives the
    same text in every world. *)
Theorem status_byte_decoding (b : Z) :
  0 <= b < 256 ->
  let st := spec_decodeCalibrationState b in
  truthy (Z.land b GR_STATE_BADSTOREDATA) = Z.testbit b 0
  /\ code_phase b = spec_phase (Z.testbit b 2) (Z.testbit b 1)
  /\ truthy (Z.land b GR_STATE_FCALSEQERR) = Z.testbit b 3
  /\ truthy (Z.land b GR_STATE_FCALSEQTO) = Z.testbit b 4
  /\ truthy (Z.land b GR_STATE_FCALSEQDONE) = Z.testbit b 5
  /\ truthy (Z.land b GR_STATE_FCALPASS) = Z.testbit b 6
  /\ truthy (Z.land b GR_STATE_FCALFAIL) = Z.testbit b 7
  /\ In (fcalPhase st) [Idle; Primed; Generated; Reserved]
  /\ t66_state_text b
     = "T66 state: " ++ fmt_02X b ++ " " ++ state_words st ++ newline
  /\ forall w, mxt_gr_print_state b w = Ret tt (emit (EvPrintf (t66_state_text b)) w).
Proof.
  intros Hb st.
  assert (H : decode_agrees b = true).
  { apply for_all_bytes; [vm_compute; reflexivity | exact Hb]. }
  unfold decode_agrees in H. fold st in H.
  repeat (apply andb_true_iff in H; destruct H as [H ?]).
  repeat match goal with
         | E : Bool.eqb _ _ = true |- _ => apply eqb_prop in E
         | E : String.eqb _ _ = true |- _ => apply String.eqb_eq in E
         end.
  subst st. unfold spec_decodeCalibrationState in *.
  cbn [badStoredData fcalPhase sequenceError sequenceTimeout sequenceDone
       fcalPass fcalFail] in *.
  repeat split; try assumption.
  - destruct (code_phase b), (spec_phase (Z.testbit b 2) (Z.testbit b 1));
      try discriminate; reflexivity.
  - destruct (spec_phase (Z.testbit b 2) (Z.testbit b 1)); simpl; auto.
Qed.

Lemma status_byte_decoding_witness :
  0 <= 68 < 256
  /\ code_phase 68 = Generated
  /\ t66_state_text 68
     = "T66 state: 44 " ++ state_words (spec_decodeCalibrationState 68) ++ newline.
Proof.
  split; [lia|].
  pose proof (status_byte_decoding 68 ltac:(lia)) as H.
  split; [apply H | apply H].
Defined.

(** C4. The byte [mxt_gr_run_command] writes, at [addr + 0], has the
    enable bit and the report-enable bit set and carries the caller's
    command bits unchanged; it is the only register write of the call. *)
Theorem command_byte_has_enable_bits (T66 T6 : Z) (fuel : nat)
    (addr cmd wf wb : Z) (w : world) :
  0 <= cmd < 256 ->
  exists b,
    writes (trace (world_of (mxt_gr_run_command T66 T6 fuel addr cmd wf wb w)))
    = (writes (trace w) ++ [([b], addr + 0, 1)])%list
    /\ Z.testbit b 0 = true
    /\ Z.testbit b 1 = true
    /\ (forall i, 2 <= i -> Z.testbit b i = Z.testbit cmd i)
    /\ Z.land b GR_FCALCMD_MASK = Z.land cmd GR_FCALCMD_MASK.
Proof.
  intros Hc. exists (Z.lor cmd 3).
  rewrite run_command_writes, (uint8_lor_enable cmd Hc).
  split; [reflexivity|].
  split; [rewrite Z.lor_spec; apply orb_true_r|].
  split; [rewrite Z.lor_spec; apply orb_true_r|].
  split.
  - intros i Hi. rewrite Z.lor_spec.
    change 3 with (Z.ones 2). rewrite Z.ones_spec_high by lia.
    apply orb_false_r.
  - rewrite Z.land_lor_distr_l. change (Z.land 3 GR_FCALCMD_MASK) with 0.
    apply Z.lor_0_r.
Qed.

Lemma command_byte_has_enable_bits_witness :
  exists b,
    writes (trace (world_of
      (mxt_gr_run_command 66 6 1 300 GR_FCALCMD_GENERATE
         GR_STATE_GENERATED GR_STATE_FCALPASS (bench [1] [t66_msg 68]))))
    = [([b], 300, 1)]
    /\ Z.testbit b 0 = true /\ Z.testbit b 1 = true
    /\ Z.land b GR_FCALCMD_MASK = GR_FCALCMD_GENERATE.
Proof.
  destruct (command_byte_has_enable_bits 66 6 1 300 GR_FCALCMD_GENERATE
              GR_STATE_GENERATED GR_STATE_FCALPASS (bench [1] [t66_msg 68]))
    as (b & Hw & H0 & H1 & _ & Hm).
  - change (0 <= 8 < 256). lia.
  - exists b. repeat split; assumption.
Defined.

Section GrClaims.

Variables T66 T6 ONF : Z.

Local Abbreviation get_status := (mxt_gr_get_status T66 T6).
Local Abbreviation run_command := (mxt_gr_run_command T66 T6).
Local Abbreviation store_golden_refs := (mxt_store_golden_refs T66 T6 ONF).

(** C3, as amended.  Once the command is written and the poller has
    returned a state, [mxt_gr_run_command] succeeds exactly when the
    state's bits 1-2 equal the wanted phase and at least one bit of the
    wanted state-bit mask is set in the state; otherwise it prints
    "Failed to enter correct state" and returns -1. *)
Theorem run_command_verdict (fuel : nat) (addr cmd wf wb : Z)
    (w w1 w2 : world) (r1 s : Z) :
  write_command addr cmd w = Ret r1 w1 -> 0 <= r1 ->
  get_status fuel GR_TIMEOUT w1 = Ret (0, Some s) w2 ->
  (run_command fuel addr cmd wf wb w = Ret 0 w2
   <-> Z.land s 6 = wf /\ Z.land s wb <> 0)
  /\ (~ (Z.land s 6 = wf /\ Z.land s wb <> 0) ->
      run_command fuel addr cmd wf wb w
      = Ret (-1) (emit (EvPrintf ("Failed to enter correct state" ++ newline)) w2)).
Proof.
  intros Hw Hr Hp.
  rewrite (run_command_after_poll T66 T6 fuel addr cmd wf wb w r1 w1 s w2 Hw Hr Hp).
  rewrite <- entered_state_spec.
  destruct (entered_state s wf wb); split.
  - split; reflexivity.
  - intros H. exfalso. apply H. reflexivity.
  - split; discriminate.
  - reflexivity.
Qed.

(** C6. A state answering Generate whose phase bits say Generated, with
    fcalFail set and fcalPass clear, fails the Generate command: the
    phase matches and the command still returns -1 after printing
    "Failed to enter correct state". *)
Theorem generate_rejects_fcalfail (fuel : nat) (addr : Z)
    (w w1 w2 : world) (r1 s : Z) :
  write_command addr GR_FCALCMD_GENERATE w = Ret r1 w1 -> 0 <= r1 ->
  get_status fuel GR_TIMEOUT w1 = Ret (0, Some s) w2 ->
  Z.land s GR_STATE_FCALSTATE_MASK = GR_STATE_GENERATED ->
  Z.testbit s 7 = true -> Z.testbit s 6 = false ->
  run_command fuel addr GR_FCALCMD_GENERATE GR_STATE_GENERATED GR_STATE_FCALPASS w
  = Ret (-1) (emit (EvPrintf ("Failed to enter correct state" ++ newline)) w2).
Proof.
  intros Hw Hr Hp Hphase _ Hpass.
  rewrite (run_command_after_poll T66 T6 fuel addr _ _ _ w r1 w1 s w2 Hw Hr Hp).
  unfold entered_state. rewrite Hphase, Z.eqb_refl. simpl.
  assert (E : Z.land s GR_STATE_FCALPASS = 0).
  { apply Z.bits_inj'. intros n Hn.
    rewrite Z.land_spec, Z.bits_0.
    change GR_STATE_FCALPASS with (2 ^ 6).
    rewrite Z.pow2_bits_eqb by lia.
    destruct (Z.eqb_spec 6 n) as [<-|]; [rewrite Hpass|]; auto using andb_false_r. }
  unfold truthy. rewrite E. reflexivity.
Qed.

(** C9. When the address lookup for T66 answers [OBJECT_NOT_FOUND], the
    procedure returns a negative result at once: all it has done is the
    message reset, and no register was written. *)
Theorem not_found_writes_nothing (fuel : nat) (w : world) :
  0 <= ONF < 65536 ->
  object_table w T66 0 = ONF ->
  exists r w',
    store_golden_refs fuel w = Ret r w'
    /\ r < 0
    /\ trace w' = (trace w ++ [EvMsgReset])%list
    /\ writes (trace w') = writes (trace w).
Proof.
  intros Hrange Hnf.
  unfold mxt_store_golden_refs, bind, mxt_msg_reset, get_object_address, ret.
  destruct (reset_ret w <? 0) eqn:E.
  - apply Z.ltb_lt in E. exists (reset_ret w), (emit EvMsgReset w).
    repeat split; auto. simpl. rewrite writes_app. apply app_nil_r.
  - simpl. rewrite Hnf. unfold uint16_t. rewrite Z.mod_small by lia.
    rewrite Z.eqb_refl. exists (-1), (emit EvMsgReset w).
    repeat split; auto; try lia. simpl. rewrite writes_app. apply app_nil_r.
Qed.

Lemma writes_emit (e : event) (w : world) :
  writes (trace (emit e w)) = (writes (trace w) ++ writes [e])%list.
Proof. simpl. apply writes_app. Qed.

(** The procedure up to the first command. *)
Lemma store_golden_refs_start (fuel : nat) (w : world) :
  0 <= reset_ret w ->
  uint16_t (object_table w T66 0) <> ONF ->
  store_golden_refs fuel w =
  (ret1 <- run_command fuel (uint16_t (object_table w T66 0))
             GR_FCALCMD_PRIME GR_STATE_PRIMED GR_STATE_PRIMED ;;
   if ret1 <? 0 then ret ret1 else
   printf ("Generating" ++ newline) ;;;
   ret2 <- run_command fuel (uint16_t (object_table w T66 0))
             GR_FCALCMD_GENERATE GR_STATE_GENERATED GR_STATE_FCALPASS ;;
   if ret2 <? 0 then ret ret2 else
   printf ("Storing" ++ newline) ;;;
   ret3 <- run_command fuel (uint16_t (object_table w T66 0))
             GR_FCALCMD_STORE GR_STATE_IDLE GR_STATE_FCALSEQDONE ;;
   if ret3 <? 0 then ret ret3 else
   printf ("Done" ++ newline) ;;; ret 0)
    (emit (EvPrintf ("Priming" ++ newline)) (emit EvMsgReset w)).
Proof.
  intros Hr Ha. unfold mxt_store_golden_refs.
  unfold bind at 1. unfold mxt_msg_reset.
  destruct (reset_ret w <? 0) eqn:E; [apply Z.ltb_lt in E; lia|].
  unfold bind at 1. unfold get_object_address.
  cbn [object_table emit].
  destruct (Z.eqb_spec (uint16_t (object_table w T66 0)) ONF) as [E'|_];
    [contradiction|].
  reflexivity.
Qed.

Lemma negative_ltb (r : Z) : r < 0 -> (r <? 0) = true.
Proof. apply Z.ltb_lt. Qed.

Lemma nonnegative_ltb (r : Z) : 0 <= r -> (r <? 0) = false.
Proof. apply Z.ltb_ge. Qed.

(** C5. A phase that fails ends the run with that phase's error, in the
    world the phase left: no command of a later phase is written.  After
    a failed Prime only the Prime byte was written, after a failed
    Generate only the Prime and Generate bytes (so Store is never
    attempted), and a failed Store is returned as it is. *)
Theorem failed_phase_ends_run (fuel : nat) (w : world) :
  0 <= reset_ret w ->
  uint16_t (object_table w T66 0) <> ONF ->
  let addr := uint16_t (object_table w T66 0) in
  let w0 := emit (EvPrintf ("Priming" ++ newline)) (emit EvMsgReset w) in
  let prime := run_command fuel addr GR_FCALCMD_PRIME
                 GR_STATE_PRIMED GR_STATE_PRIMED in
  let generate := run_command fuel addr GR_FCALCMD_GENERATE
                    GR_STATE_GENERATED GR_STATE_FCALPASS in
  let store := run_command fuel addr GR_FCALCMD_STORE
                 GR_STATE_IDLE GR_STATE_FCALSEQDONE in
  (forall r w1,
      prime w0 = Ret r w1 -> r < 0 ->
      store_golden_refs fuel w = Ret r w1
      /\ writes (trace w1) = (writes (trace w) ++ [([7], addr + 0, 1)])%list)
  /\ (forall r1 w1 r w2,
         prime w0 = Ret r1 w1 -> 0 <= r1 ->
         generate (emit (EvPrintf ("Generating" ++ newline)) w1) = Ret r w2 ->
         r < 0 ->
         store_golden_refs fuel w = Ret r w2
         /\ writes (trace w2)
            = (writes (trace w)
               ++ [([7], addr + 0, 1); ([11], addr + 0, 1)])%list)
  /\ (forall r1 w1 r2 w2 r w3,
         prime w0 = Ret r1 w1 -> 0 <= r1 ->
         generate (emit (EvPrintf ("Generating" ++ newline)) w1) = Ret r2 w2 ->
         0 <= r2 ->
         store (emit (EvPrintf ("Storing" ++ newline)) w2) = Ret r w3 ->
         r < 0 ->
         store_golden_refs fuel w = Ret r w3
         /\ writes (trace w3)
            = (writes (trace w)
               ++ [([7], addr + 0, 1); ([11], addr + 0, 1);
                   ([15], addr + 0, 1)])%list).
Proof.
  intros Hr Ha addr w0 prime generate store.
  rewrite (store_golden_refs_start fuel w Hr Ha). fold addr w0 prime generate store.
  assert (W0 : writes (trace w0) = writes (trace w)).
  { unfold w0. rewrite !writes_emit. simpl. rewrite !app_nil_r. reflexivity. }
  split; [|split].
  - intros r w1 H1 N1.
    rewrite (bind_Ret _ _ _ _ _ H1), (negative_ltb r N1).
    split; [reflexivity|].
    rewrite (run_command_Ret_writes _ _ _ _ _ _ _ _ _ _ H1), W0. reflexivity.
  - intros r1 w1 r w2 H1 P1 H2 N2.
    rewrite (bind_Ret _ _ _ _ _ H1), (nonnegative_ltb r1 P1).
    unfold bind at 1. unfold printf at 1.
    rewrite (bind_Ret _ _ _ _ _ H2), (negative_ltb r N2).
    split; [reflexivity|].
    rewrite (run_command_Ret_writes _ _ _ _ _ _ _ _ _ _ H2), writes_emit.
    rewrite (run_command_Ret_writes _ _ _ _ _ _ _ _ _ _ H1), W0.
    simpl. rewrite app_nil_r, <- app_assoc. reflexivity.
  - intros r1 w1 r2 w2 r w3 H1 P1 H2 P2 H3 N3.
    rewrite (bind_Ret _ _ _ _ _ H1), (nonnegative_ltb r1 P1).
    unfold bind at 1. unfold printf at 1.
    rewrite (bind_Ret _ _ _ _ _ H2), (nonnegative_ltb r2 P2).
    unfold bind at 1. unfold printf at 1.
    rewrite (bind_Ret _ _ _ _ _ H3), (negative_ltb r N3).
    split; [reflexivity|].
    rewrite (run_command_Ret_writes _ _ _ _ _ _ _ _ _ _ H3), writes_emit.
    rewrite (run_command_Ret_writes _ _ _ _ _ _ _ _ _ _ H2), writes_emit.
    rewrite (run_command_Ret_writes _ _ _ _ _ _ _ _ _ _ H1), W0.
    simpl. rewrite !app_nil_r, <- !app_assoc. reflexivity.
Qed.

(** C1, as amended.  Priming writes 0b00000111 and succeeds on status
    0x02; generating writes 0b00001011 and succeeds on status 0x44 (phase
    Generated with fcalPass); storing writes 0b00001111 and succeeds on
    status 0x20; the procedure then prints "Done" and returns 0. *)
Theorem golden_refs_scenario (fuel : nat) (w w1 w2 w3 w4 w5 w6 : world)
    (r1 r2 r3 : Z) :
  0 <= reset_ret w ->
  uint16_t (object_table w T66 0) <> ONF ->
  let addr := uint16_t (object_table w T66 0) in
  let w0 := emit (EvPrintf ("Priming" ++ newline)) (emit EvMsgReset w) in
  let g0 := emit (EvPrintf ("Generating" ++ newline)) w2 in
  let s0 := emit (EvPrintf ("Storing" ++ newline)) w4 in
  write_command addr GR_FCALCMD_PRIME w0 = Ret r1 w1 -> 0 <= r1 ->
  get_status fuel GR_TIMEOUT w1 = Ret (0, Some 2) w2 ->
  write_command addr GR_FCALCMD_GENERATE g0 = Ret r2 w3 -> 0 <= r2 ->
  get_status fuel GR_TIMEOUT w3 = Ret (0, Some 68) w4 ->
  write_command addr GR_FCALCMD_STORE s0 = Ret r3 w5 -> 0 <= r3 ->
  get_status fuel GR_TIMEOUT w5 = Ret (0, Some 32) w6 ->
  writes (trace w1) = (writes (trace w) ++ [([7], addr + 0, 1)])%list
  /\ run_command fuel addr GR_FCALCMD_PRIME GR_STATE_PRIMED GR_STATE_PRIMED w0
     = Ret 0 w2
  /\ writes (trace w3) = (writes (trace g0) ++ [([11], addr + 0, 1)])%list
  /\ run_command fuel addr GR_FCALCMD_GENERATE
       GR_STATE_GENERATED GR_STATE_FCALPASS g0 = Ret 0 w4
  /\ writes (trace w5) = (writes (trace s0) ++ [([15], addr + 0, 1)])%list
  /\ run_command fuel addr GR_FCALCMD_STORE
       GR_STATE_IDLE GR_STATE_FCALSEQDONE s0 = Ret 0 w6
  /\ store_golden_refs fuel w
     = Ret 0 (emit (EvPrintf ("Done" ++ newline)) w6).
Proof.
  intros Hr Ha addr w0 g0 s0 W1 P1 S1 W2 P2 S2 W3 P3 S3.
  pose proof (run_command_after_poll T66 T6 fuel addr _ GR_STATE_PRIMED
                GR_STATE_PRIMED _ _ _ _ _ W1 P1 S1) as C1.
  pose proof (run_command_after_poll T66 T6 fuel addr _ GR_STATE_GENERATED
                GR_STATE_FCALPASS _ _ _ _ _ W2 P2 S2) as C2.
  pose proof (run_command_after_poll T66 T6 fuel addr _ GR_STATE_IDLE
                GR_STATE_FCALSEQDONE _ _ _ _ _ W3 P3 S3) as C3.
  change (entered_state 2 GR_STATE_PRIMED GR_STATE_PRIMED) with true in C1.
  change (entered_state 68 GR_STATE_GENERATED GR_STATE_FCALPASS) with true in C2.
  change (entered_state 32 GR_STATE_IDLE GR_STATE_FCALSEQDONE) with true in C3.
  cbv iota in C1, C2, C3.
  repeat split; try assumption.
  - rewrite (write_command_writes _ _ _ _ _ W1). unfold w0.
    rewrite !writes_emit. simpl. rewrite !app_nil_r. reflexivity.
  - apply (write_command_writes _ _ _ _ _ W2).
  - apply (write_command_writes _ _ _ _ _ W3).
  - rewrite (store_golden_refs_start fuel w Hr Ha). fold addr w0.
    rewrite (bind_Ret _ _ _ _ _ C1). cbn [Z.ltb Z.compare].
    unfold bind at 1. unfold printf at 1. fold g0.
    rewrite (bind_Ret _ _ _ _ _ C2). cbn [Z.ltb Z.compare].
    unfold bind at 1. unfold printf at 1. fold s0.
    rewrite (bind_Ret _ _ _ _ _ C3). cbn [Z.ltb Z.compare].
    reflexivity.
Qed.

End GrClaims.

(** ** The poller *)

Lemma bind_frame (P : world -> world -> Prop) (R : world -> world -> Prop)
    {A B} (m : M A) (k : A -> M B) :
  (forall w, R w w) ->
  (forall w, P w (world_of (m w))) ->
  (forall a, preserves R (k a)) ->
  forall w, exists w1, P w w1 /\ R w1 (world_of (bind m k w)).
Proof.
  intros Hrefl Hm Hk w. rewrite world_of_bind. specialize (Hm w).
  destruct (m w) as [a w1|w1|w1]; simpl in Hm; exists w1; auto.
  split; [exact Hm|apply Hk].
Qed.

Lemma last_line_printf (text : string) (w : world) :
  last_line (emit (EvPrintf text) w) = text.
Proof.
  unfold last_line. simpl. rewrite stdout_app. simpl. apply last_last.
Qed.

Lemma quiet_polling (T66 : Z) (w w' : world) :
  polling w w' -> quiet T66 w = true -> quiet T66 w' = true.
Proof.
  intros [Hids [pre Hpre] _] Hq. unfold quiet in *.
  rewrite Hpre, forallb_app in Hq. apply andb_true_iff in Hq.
  destruct Hq as [_ Hq]. unfold is_t66_read in *. rewrite Hids. exact Hq.
Qed.

Lemma mxt_get_msg_count_world (w : world) :
  exists c w1,
    mxt_get_msg_count w = Ret c w1
    /\ trace w1 = (trace w ++ [EvGetMsgCount c])%list
    /\ clock w1 = clock w.
Proof.
  unfold mxt_get_msg_count. destruct (msg_counts w) as [|c rest];
    eexists; eexists; (split; [reflexivity|]); simpl; auto.
Qed.

Lemma mxt_get_msg_bytes_reads buf len (w : world) :
  steady w (world_of (mxt_get_msg_bytes buf len w))
  /\ reads (trace (world_of (mxt_get_msg_bytes buf len w))) = reads (trace w) + 1.
Proof.
  split; [apply steady_mxt_get_msg_bytes|].
  unfold mxt_get_msg_bytes. destruct (msg_reads w) as [|[r b] rest]; simpl;
    rewrite reads_app; reflexivity.
Qed.

Section GrPoller.

Variables T66 T6 : Z.

Local Abbreviation read_one := (read_one_message T66 T6).
Local Abbreviation drain := (drain_messages T66 T6).
Local Abbreviation poll_loop := (mxt_gr_get_status_loop T66 T6).
Local Abbreviation get_status := (mxt_gr_get_status T66 T6).

(** Every round of the drain calls [mxt_get_msg_bytes] once. *)
Lemma read_one_message_reads buf w :
  reads (trace (world_of (read_one buf w))) = reads (trace w) + 1.
Proof.
  unfold read_one_message.
  match goal with
  | |- context [world_of (bind ?m ?k w)] =>
      destruct (bind_frame
                  (fun w w1 => steady w w1
                               /\ reads (trace w1) = reads (trace w) + 1)
                  silent m k silent_refl
                  (mxt_get_msg_bytes_reads buf sizeof_buf)) with (w := w)
        as (w1 & [_ H1] & H2)
  end.
  - intros a. cbv beta. frame.
  - destruct (silent_counts _ _ H2) as (_ & _ & _ & -> & _). exact H1.
Qed.

Lemma drain_messages_reads n :
  forall buf w buf' w',
    drain n buf w = Ret (None, buf') w' ->
    reads (trace w') = reads (trace w) + Z.of_nat n.
Proof.
  induction n as [|n IH]; intros buf w buf' w' H.
  - simpl in H. injection H as _ <-. simpl. lia.
  - simpl in H. apply bind_Ret_inv in H. destruct H as ([st b] & w1 & H1 & H2).
    simpl in H2. destruct st as [s|]; [discriminate|].
    apply IH in H2. rewrite H2.
    pose proof (read_one_message_reads buf w) as R. rewrite H1 in R. simpl in R.
    lia.
Qed.

(** A read that is not a T66 message leaves the drain running. *)
Lemma read_one_message_quiet buf w :
  quiet T66 w = true ->
  exists buf' w', read_one buf w = Ret (None, buf') w'.
Proof.
  intros Hq. unfold read_one_message, bind, mxt_get_msg_bytes.
  unfold quiet in Hq.
  destruct (msg_reads w) as [|[r b] rest]; simpl.
  - eexists; eexists; reflexivity.
  - simpl in Hq. apply andb_true_iff in Hq. destruct Hq as [Hq _].
    apply negb_true_iff in Hq. unfold is_t66_read in Hq. simpl in Hq.
    destruct (size_t r >? 0); simpl in *.
    + unfold report_id_to_type, LOG. simpl. rewrite Hq.
      destruct (report_ids w (buf_get b 0) =? T6);
        eexists; eexists; reflexivity.
    + eexists; eexists; reflexivity.
Qed.

Lemma drain_messages_quiet n :
  forall buf w,
    quiet T66 w = true ->
    exists buf' w',
      drain n buf w = Ret (None, buf') w' /\ steady w w' /\ quiet T66 w' = true.
Proof.
  induction n as [|n IH]; intros buf w Hq.
  - exists buf, w. split; [reflexivity|split; [apply steady_refl|exact Hq]].
  - simpl. destruct (read_one_message_quiet buf w Hq) as (b1 & w1 & H1).
    pose proof (steady_read_one_message T66 T6 buf w) as S1.
    rewrite H1 in S1. simpl in S1.
    rewrite (bind_Ret _ _ _ _ _ H1). simpl.
    destruct (IH b1 w1) as (b2 & w2 & H2 & S2 & Q2).
    { eapply quiet_polling; [apply steady_polling, S1|exact Hq]. }
    exists b2, w2. split; [exact H2|split; [eapply steady_trans; eauto|exact Q2]].
Qed.

Lemma drain_or_skip_steady (count : Z) buf w1 st b w2 :
  (if count >? 0 then drain (Z.to_nat count) buf else ret (None, buf)) w1
  = Ret (st, b) w2 ->
  steady w1 w2.
Proof.
  intros H. destruct (count >? 0).
  - pose proof (steady_drain_messages T66 T6 (Z.to_nat count) buf w1) as S.
    rewrite H in S. exact S.
  - injection H as _ _ <-. apply steady_refl.
Qed.

Lemma drain_or_skip_reads (c : Z) buf w1 b w2 :
  (if uint16_t c >? 0 then drain (Z.to_nat (uint16_t c)) buf
   else ret (None, buf)) w1 = Ret (None, b) w2 ->
  reads (trace w2) = reads (trace w1) + uint16_t c.
Proof.
  intros H. assert (0 <= uint16_t c) by (apply Z.mod_pos_bound; lia).
  destruct (uint16_t c >? 0) eqn:E.
  - apply drain_messages_reads in H. lia.
  - injection H as _ <-. rewrite Z.gtb_ltb in E; apply Z.ltb_ge in E. lia.
Qed.

(** With no T66 message to come, the loop can only time out. *)
Lemma poll_loop_quiet fuel :
  forall start_time timeout buf w,
    quiet T66 w = true ->
    match poll_loop fuel start_time timeout buf w with
    | Ret rs w' => rs = (-1, None) /\ last_line w' = "Timeout" ++ newline
    | OutOfFuel _ =>
        Z.of_nat fuel <= Z.max 0 (timeout + 1 - (clock w - start_time))
    | Undefined _ => False
    end.
Proof.
  induction fuel as [|n IH]; intros st to buf w Hq.
  - simpl. lia.
  - cbn [mxt_gr_get_status_loop]. unfold bind at 1. unfold time at 1.
    destruct (clock w - st >? to) eqn:E.
    + split; [reflexivity|]. apply last_line_printf.
    + rewrite Z.gtb_ltb in E; apply Z.ltb_ge in E.
      destruct (mxt_get_msg_count_world w) as (c & w1 & Hc & T1 & K1).
      pose proof (polling_mxt_get_msg_count w) as P1. rewrite Hc in P1. simpl in P1.
      rewrite (bind_Ret _ _ _ _ _ Hc).
      assert (D : exists b w2,
                (if uint16_t c >? 0 then drain (Z.to_nat (uint16_t c)) buf
                 else ret (None, buf)) w1 = Ret (None, b) w2
                /\ steady w1 w2 /\ quiet T66 w2 = true).
      { destruct (uint16_t c >? 0).
        - apply drain_messages_quiet. eapply quiet_polling; eauto.
        - exists buf, w1. split; [reflexivity|].
          split; [apply steady_refl|eapply quiet_polling; eauto]. }
      destruct D as (b & w2 & Hd & S2 & Q2).
      rewrite (bind_Ret _ _ _ _ _ Hd). cbn [fst snd].
      unfold bind at 1. unfold sleep at 1.
      specialize (IH st to b (emit (EvSleep 1) (set_clock (clock w2 + 1) w2)) Q2).
      destruct (poll_loop n st to b _) as [rs w'|w'|w']; auto.
      cbn [clock emit set_clock] in IH. rewrite (steady_clock _ _ S2), K1 in IH.
      lia.
Qed.

(** A run of the loop that ends without a state ended on the timeout,
    after as many complete drains and one-second sleeps as the clock
    needed to pass the bound. *)
Lemma poll_loop_timeout fuel :
  forall start_time timeout buf w r s w',
    poll_loop fuel start_time timeout buf w = Ret (r, s) w' ->
    r <> 0 ->
    let k := Z.max 0 (timeout + 1 - (clock w - start_time)) in
    r = -1 /\ s = None
    /\ last_line w' = "Timeout" ++ newline
    /\ clock w' = clock w + k
    /\ drains (trace w') = drains (trace w) + k
    /\ slept (trace w') = slept (trace w) + k
    /\ reads (trace w') - reads (trace w)
       = announced (trace w') - announced (trace w).
Proof.
  induction fuel as [|n IH]; intros st to buf w r s w' H Hr k; [discriminate|].
  cbn [mxt_gr_get_status_loop] in H. unfold bind at 1 in H. unfold time at 1 in H.
  subst k. destruct (clock w - st >? to) eqn:E.
  - rewrite Z.gtb_ltb in E; apply Z.ltb_lt in E.
    unfold bind, printf, ret in H. injection H as <- <- <-.
    rewrite last_line_printf. cbn [trace clock emit].
    rewrite drains_app, slept_app, reads_app, announced_app. simpl.
    repeat split; lia.
  - rewrite Z.gtb_ltb in E; apply Z.ltb_ge in E.
    destruct (mxt_get_msg_count_world w) as (c & w1 & Hc & T1 & K1).
    rewrite (bind_Ret _ _ _ _ _ Hc) in H.
    apply bind_Ret_inv in H. destruct H as ([st' b] & w2 & Hd & H).
    cbn [fst snd] in H. destruct st' as [state|].
    { injection H as <- _ _. contradiction. }
    pose proof (drain_or_skip_steady _ _ _ _ _ _ Hd) as S2.
    pose proof (drain_or_skip_reads _ _ _ _ _ Hd) as R2.
    unfold bind at 1 in H. unfold sleep at 1 in H.
    apply IH in H; [|exact Hr].
    destruct H as (-> & -> & L & K & D & SL & RA).
    cbn [trace clock emit set_clock] in K, D, SL, RA.
    rewrite drains_app in D. rewrite slept_app in SL.
    rewrite reads_app, announced_app in RA. simpl in D, SL, RA.
    destruct S2 as [C2 _ _ _ D2 A2 SL2].
    rewrite T1 in D2, A2, SL2, R2.
    rewrite drains_app in D2. rewrite announced_app in A2.
    rewrite slept_app in SL2. rewrite reads_app in R2. simpl in D2, A2, SL2, R2.
    repeat split; auto; lia.
Qed.

(** A run of the loop that returns 0 hands back a state. *)
Lemma poll_loop_success fuel :
  forall start_time timeout buf w s w',
    poll_loop fuel start_time timeout buf w = Ret (0, s) w' ->
    exists state, s = Some state.
Proof.
  induction fuel as [|n IH]; intros st to buf w s w' H; [discriminate|].
  cbn [mxt_gr_get_status_loop] in H. unfold bind at 1 in H. unfold time at 1 in H.
  destruct (clock w - st >? to).
  - unfold bind, printf, ret in H. discriminate.
  - apply bind_Ret_inv in H. destruct H as (c & w1 & _ & H).
    apply bind_Ret_inv in H. destruct H as ([st' b] & w2 & _ & H).
    cbn [fst snd] in H. destruct st' as [state|].
    + injection H as <- _. exists state. reflexivity.
    + unfold bind at 1 in H. unfold sleep at 1 in H. eapply IH, H.
Qed.

(** A bound below zero is passed before the first round: the poller
    reports the timeout without asking for messages. *)
Lemma negative_timeout_reports_at_once (fuel : nat) (timeout : Z) (w : world) :
  timeout < 0 ->
  get_status (S fuel) timeout w
  = Ret (-1, None) (emit (EvPrintf ("Timeout" ++ newline)) w).
Proof.
  intros H. unfold mxt_gr_get_status, bind, time.
  cbn [mxt_gr_get_status_loop]. unfold bind, time.
  replace (clock w - clock w >? timeout) with true; [reflexivity|].
  symmetry. rewrite Z.gtb_ltb. apply Z.ltb_lt. lia.
Qed.

End GrPoller.

(** ** The loop bounds of the model are never reached *)

Lemma terminates_ret {A} (a : A) : terminates (ret a).
Proof. intros w. exact I. Qed.

Lemma terminates_undefined {A} : terminates (fun w => @Undefined A w).
Proof. intros w. exact I. Qed.

Lemma terminates_bind {A B} (m : M A) (k : A -> M B) :
  terminates m -> (forall a, terminates (k a)) -> terminates (bind m k).
Proof.
  intros Hm Hk w. unfold bind. specialize (Hm w).
  destruct (m w) as [a w1|w1|w1]; auto. apply Hk.
Qed.

Lemma terminates_printf text : terminates (printf text).
Proof. intros w. exact I. Qed.

Lemma terminates_LOG text : terminates (LOG text).
Proof. intros w. exact I. Qed.

Lemma terminates_report_id_to_type id : terminates (report_id_to_type id).
Proof. intros w. exact I. Qed.

Lemma terminates_mxt_get_msg_bytes buf len : terminates (mxt_get_msg_bytes buf len).
Proof.
  intros w. unfold mxt_get_msg_bytes.
  destruct (msg_reads w) as [|[r b] rest]; exact I.
Qed.

Lemma terminates_mxt_write_register data addr count :
  terminates (mxt_write_register data addr count).
Proof.
  intros w. unfold mxt_write_register. destruct (write_rets w); exact I.
Qed.

Create HintDb halts.
#[local] Hint Resolve terminates_ret terminates_undefined terminates_printf
  terminates_LOG terminates_report_id_to_type terminates_mxt_get_msg_bytes
  terminates_mxt_write_register : halts.

Ltac halts :=
  repeat first
    [ progress intros
    | solve [auto with halts]
    | apply terminates_bind
    | match goal with
      | |- terminates (if ?c then _ else _) => destruct c
      | |- terminates (match ?x with Some _ => _ | None => _ end) => destruct x
      | |- terminates (let _ := _ in _) => cbv zeta
      end ].

Section GrTerminates.

Variables T66 T6 ONF : Z.

Lemma terminates_print_msg_bytes steps :
  forall byte len buf,
    0 <= byte -> sizeof_buf - byte <= Z.of_nat steps ->
    terminates (print_msg_bytes steps byte len buf).
Proof.
  unfold sizeof_buf.
  induction steps as [|n IH]; intros byte len buf H0 Hs; simpl;
    destruct (byte <? len); auto with halts;
    destruct (byte <? sizeof_buf) eqn:E; auto with halts;
    apply Z.ltb_lt in E; unfold sizeof_buf in E.
  - lia.
  - apply terminates_bind; [auto with halts|intros _].
    unfold uint16_t. rewrite Z.mod_small by lia. apply IH; lia.
Qed.

Lemma terminates_read_one_message buf : terminates (read_one_message T66 T6 buf).
Proof.
  unfold read_one_message, mxt_gr_print_state, mxt_gr_print_t6_state.
  pose proof (fun len b =>
    terminates_print_msg_bytes (Z.to_nat sizeof_buf) 1 len b
      ltac:(lia) ltac:(vm_compute; discriminate)) as Hp.
  halts.
Qed.

#[local] Hint Resolve terminates_read_one_message : halts.




End GrTerminates.

Section GrPollerClaims.

Variables T66 T6 : Z.

Local Abbreviation get_status := (mxt_gr_get_status T66 T6).


(** C7. When none of the messages still to come is taken for a T66
    message, the poller returns -1 after printing "Timeout" (for any loop
    bound that lets the clock pass the timeout), and for no loop bound
    does it return 0. *)
Theorem poll_without_t66_times_out (fuel : nat) (timeout : Z) (w : world) :
  quiet T66 w = true ->
  Z.max 0 (timeout + 1) < Z.of_nat fuel ->
  (exists w',
      get_status fuel timeout w = Ret (-1, None) w'
      /\ last_line w' = "Timeout" ++ newline)
  /\ (forall fuel' s w', get_status fuel' timeout w <> Ret (0, s) w').
Proof.
  intros Hq Hf. split.
  - pose proof (poll_loop_quiet T66 T6 fuel (clock w) timeout [] w Hq) as H.
    unfold mxt_gr_get_status, bind, time.
    destruct (mxt_gr_get_status_loop T66 T6 fuel (clock w) timeout [] w)
      as [rs w'|w'|w'].
    + destruct H as [-> L]. exists w'. split; [reflexivity|exact L].
    + contradiction.
    + lia.
  - intros fuel' s w' H.
    pose proof (poll_loop_quiet T66 T6 fuel' (clock w) timeout [] w Hq) as Q.
    unfold mxt_gr_get_status, bind, time in H. rewrite H in Q.
    destruct Q as [Q _]. discriminate.
Qed.


End GrPollerClaims.

(** ** The claims on the bench *)

(** C1 as the specification has it: with status 0x42 answering Generate
    the run fails in the Generate phase, and Store is never written.
    0x42 has bit 1 set, which is the Primed phase. *)
Lemma scenario_with_0x42_fails :
  code_phase 66 = Primed
  /\ exists w',
      run_bench 32 (bench [1; 1; 1] [t66_msg 2; t66_msg 66; t66_msg 32])
      = Ret (-1) w'
      /\ writes (trace w') = [([7], 300, 1); ([11], 300, 1)]
      /\ last_line w' = "Failed to enter correct state" ++ newline.
Proof.
  split; [reflexivity|].
  eexists. split; [vm_compute; reflexivity|]. split; reflexivity.
Qed.

Lemma golden_refs_scenario_witness :
  exists w',
    run_bench 1 (bench [1; 1; 1] [t66_msg 2; t66_msg 68; t66_msg 32]) = Ret 0 w'
    /\ last_line w' = "Done" ++ newline.
Proof.
  eexists. split.
  - unfold run_bench.
    eapply (golden_refs_scenario 66 6 0 1
              (bench [1; 1; 1] [t66_msg 2; t66_msg 68; t66_msg 32])).
    + simpl. lia.
    + vm_compute. discriminate.
    + reflexivity.
    + lia.
    + lazy. reflexivity.
    + reflexivity.
    + lia.
    + lazy. reflexivity.
    + reflexivity.
    + lia.
    + lazy. reflexivity.
  - reflexivity.
Defined.

(** C3 as the specification has it: asked for the two bits 0x60, the
    sequencer accepts state 0x20, in which only one of them is set. *)
Lemma any_wanted_bit_is_enough :
  Z.land 32 96 <> 96
  /\ exists w1 w2,
      write_command 300 GR_FCALCMD_STORE (bench [1] [t66_msg 32]) = Ret 0 w1
      /\ mxt_gr_get_status 66 6 1 GR_TIMEOUT w1 = Ret (0, Some 32) w2
      /\ mxt_gr_run_command 66 6 1 300 GR_FCALCMD_STORE GR_STATE_IDLE 96
           (bench [1] [t66_msg 32]) = Ret 0 w2.
Proof.
  split; [discriminate|].
  eexists. eexists. split; [reflexivity|].
  split; [lazy; reflexivity|lazy; reflexivity].
Qed.

Lemma run_command_verdict_witness :
  exists w2,
    mxt_gr_run_command 66 6 1 300 GR_FCALCMD_PRIME GR_STATE_PRIMED
      GR_STATE_PRIMED (bench [1] [t66_msg 2]) = Ret 0 w2.
Proof.
  set (w := bench [1] [t66_msg 2]).
  set (w1 := world_of (write_command 300 GR_FCALCMD_PRIME w)).
  set (w2 := world_of (mxt_gr_get_status 66 6 1 GR_TIMEOUT w1)).
  exists w2.
  destruct (run_command_verdict 66 6 1 300 GR_FCALCMD_PRIME GR_STATE_PRIMED
              GR_STATE_PRIMED w w1 w2 0 2) as [[_ H] _].
  - reflexivity.
  - lia.
  - vm_compute. reflexivity.
  - apply H. split; [reflexivity|discriminate].
Defined.

Lemma failed_phase_ends_run_witness :
  exists w',
    run_bench 1 (bench [1; 1; 1] [t66_msg 2; t66_msg 130; t66_msg 32])
    = Ret (-1) w'
    /\ writes (trace w') = [([7], 300, 1); ([11], 300, 1)].
Proof.
  set (w := bench [1; 1; 1] [t66_msg 2; t66_msg 130; t66_msg 32]).
  set (w0 := emit (EvPrintf ("Priming" ++ newline)) (emit EvMsgReset w)).
  set (w1 := world_of (mxt_gr_run_command 66 6 1 300 GR_FCALCMD_PRIME
                         GR_STATE_PRIMED GR_STATE_PRIMED w0)).
  set (w2 := world_of (mxt_gr_run_command 66 6 1 300 GR_FCALCMD_GENERATE
                         GR_STATE_GENERATED GR_STATE_FCALPASS
                         (emit (EvPrintf ("Generating" ++ newline)) w1))).
  exists w2.
  assert (Hr : 0 <= reset_ret w) by (simpl; lia).
  assert (Ha : uint16_t (object_table w 66 0) <> 0) by (vm_compute; discriminate).
  destruct (failed_phase_ends_run 66 6 0 1 w Hr Ha) as (_ & G & _).
  apply (G 0 w1 (-1) w2).
  - vm_compute. reflexivity.
  - lia.
  - vm_compute. reflexivity.
  - lia.
Defined.

Lemma generate_rejects_fcalfail_witness :
  exists w',
    mxt_gr_run_command 66 6 1 300 GR_FCALCMD_GENERATE GR_STATE_GENERATED
      GR_STATE_FCALPASS (bench [1] [t66_msg 132]) = Ret (-1) w'
    /\ code_phase 132 = Generated.
Proof.
  set (w := bench [1] [t66_msg 132]).
  set (w1 := world_of (write_command 300 GR_FCALCMD_GENERATE w)).
  set (w2 := world_of (mxt_gr_get_status 66 6 1 GR_TIMEOUT w1)).
  eexists. split; [|reflexivity].
  apply (generate_rejects_fcalfail 66 6 1 300 w w1 w2 0 132).
  - reflexivity.
  - lia.
  - vm_compute. reflexivity.
  - reflexivity.
  - reflexivity.
  - reflexivity.
Defined.

Lemma poll_without_t66_times_out_witness :
  exists w',
    mxt_gr_get_status 66 6 32 GR_TIMEOUT
      (bench [2; 1] [t6_msg 16; t6_msg 0; (5, [7; 1; 2; 3; 4; 0; 0; 0; 0; 0])])
    = Ret (-1, None) w'
    /\ last_line w' = "Timeout" ++ newline.
Proof.
  apply (poll_without_t66_times_out 66 6 32 GR_TIMEOUT).
  - reflexivity.
  - vm_compute. reflexivity.
Defined.

Lemma not_found_writes_nothing_witness :
  exists r w',
    mxt_store_golden_refs 66 6 0 32 bench_no_t66 = Ret r w'
    /\ r < 0
    /\ trace w' = [EvMsgReset]
    /\ writes (trace w') = [].
Proof.
  apply (not_found_writes_nothing 66 6 0 32 bench_no_t66).
  - lia.
  - reflexivity.
Defined.




(** * Further properties of gr.c *)

(** ** The status printers *)

Lemma truthy_land_pow2 (b k : Z) :
  0 <= k -> truthy (Z.land b (2 ^ k)) = Z.testbit b k.
Proof.
  intros Hk. unfold truthy.
  destruct (Z.testbit b k) eqn:E.
  - apply negb_true_iff, Z.eqb_neq. intros H.
    assert (T : Z.testbit (Z.land b (2 ^ k)) k = true).
    { rewrite Z.land_spec, E, Z.pow2_bits_true by lia. reflexivity. }
    rewrite H, Z.bits_0 in T. discriminate.
  - apply negb_false_iff, Z.eqb_eq, Z.bits_inj'. intros n Hn.
    rewrite Z.land_spec, Z.bits_0, Z.pow2_bits_eqb by lia.
    destruct (Z.eqb_spec k n) as [<-|_]; [rewrite E|]; auto using andb_false_r.
Qed.

(** X1. The T6 status line names exactly the set bits among bits 2 to 7
    of the status byte, in the order COMSERR, CFGERR, CAL, SIGERR, OFL,
    RESET; bits 0 and 1 change nothing. *)
Theorem t6_status_line (state : Z) :
  t6_state_text state
  = "T6 status: "
    ++ (if Z.testbit state 2 then "COMSERR " else "")
    ++ (if Z.testbit state 3 then "CFGERR " else "")
    ++ (if Z.testbit state 4 then "CAL " else "")
    ++ (if Z.testbit state 5 then "SIGERR " else "")
    ++ (if Z.testbit state 6 then "OFL " else "")
    ++ (if Z.testbit state 7 then "RESET " else "")
    ++ newline
  /\ t6_state_text (Z.land state 252) = t6_state_text state.
Proof.
  assert (E : forall s,
    t6_state_text s
    = "T6 status: "
      ++ (if Z.testbit s 2 then "COMSERR " else "")
      ++ (if Z.testbit s 3 then "CFGERR " else "")
      ++ (if Z.testbit s 4 then "CAL " else "")
      ++ (if Z.testbit s 5 then "SIGERR " else "")
      ++ (if Z.testbit s 6 then "OFL " else "")
      ++ (if Z.testbit s 7 then "RESET " else "")
      ++ newline).
  { intros s. unfold t6_state_text.
    rewrite <- (truthy_land_pow2 s 2), <- (truthy_land_pow2 s 3),
      <- (truthy_land_pow2 s 4), <- (truthy_land_pow2 s 5),
      <- (truthy_land_pow2 s 6), <- (truthy_land_pow2 s 7) by lia.
    reflexivity. }
  split; [apply E|].
  rewrite (E state), (E (Z.land state 252)).
  rewrite !Z.land_spec.
  change (Z.testbit 252 2) with true. change (Z.testbit 252 3) with true.
  change (Z.testbit 252 4) with true. change (Z.testbit 252 5) with true.
  change (Z.testbit 252 6) with true. change (Z.testbit 252 7) with true.
  rewrite !andb_true_r. reflexivity.
Qed.

(** X2. On a status byte, Prime's check passes exactly when the phase is
    Primed, Generate's exactly when the phase is Generated and fcalPass
    is set, Store's exactly when the phase is Idle and sequenceDone is
    set.  No check looks at fcalFail, sequenceError, sequenceTimeout or
    badStoredData. *)
Theorem phase_checks_by_flags (s : Z) :
  0 <= s < 256 ->
  let st := spec_decodeCalibrationState s in
  (entered_state s GR_STATE_PRIMED GR_STATE_PRIMED = true
   <-> fcalPhase st = Primed)
  /\ (entered_state s GR_STATE_GENERATED GR_STATE_FCALPASS = true
      <-> fcalPhase st = Generated /\ fcalPass st = true)
  /\ (entered_state s GR_STATE_IDLE GR_STATE_FCALSEQDONE = true
      <-> fcalPhase st = Idle /\ sequenceDone st = true).
Proof.
  intros Hs st.
  assert (H : phase_checks_agree s = true).
  { apply for_all_bytes; [vm_compute; reflexivity|exact Hs]. }
  unfold phase_checks_agree in H. fold st in H.
  repeat (apply andb_true_iff in H; destruct H as [H ?]).
  repeat match goal with
         | E : Bool.eqb _ _ = true |- _ => apply eqb_prop in E
         end.
  repeat split;
    repeat match goal with
           | E : entered_state _ _ _ = _ |- _ => rewrite E; clear E
           end;
    destruct (fcalPhase st), (fcalPass st), (sequenceDone st);
    intuition congruence.
Qed.

Lemma phase_checks_by_flags_witness :
  entered_state 196 GR_STATE_GENERATED GR_STATE_FCALPASS = true
  /\ fcalFail (spec_decodeCalibrationState 196) = true.
Proof.
  split; [|reflexivity].
  apply (phase_checks_by_flags 196); [lia|].
  split; reflexivity.
Defined.

(** ** The poller and the sequencer *)

Section GrMore.

Variables T66 T6 ONF : Z.

Local Abbreviation read_one := (read_one_message T66 T6).
Local Abbreviation drain := (drain_messages T66 T6).
Local Abbreviation poll_loop := (mxt_gr_get_status_loop T66 T6).
Local Abbreviation get_status := (mxt_gr_get_status T66 T6).
Local Abbreviation run_command := (mxt_gr_run_command T66 T6).
Local Abbreviation store_golden_refs := (mxt_store_golden_refs T66 T6 ONF).

(** X3. However a poll ends, it has written no register and has left the
    report-id table alone; the read answers it has not consumed are still
    there, in order. *)
Theorem poll_writes_no_register (fuel : nat) (timeout : Z) (w : world) :
  let w' := world_of (get_status fuel timeout w) in
  writes (trace w') = writes (trace w)
  /\ report_ids w' = report_ids w
  /\ exists consumed, msg_reads w = (consumed ++ msg_reads w')%list.
Proof.
  destruct (polling_get_status T66 T6 fuel timeout w) as [Hi Hr Hw].
  repeat split; assumption.
Qed.

(** X4. When the register write fails, [mxt_gr_run_command] returns the
    library's error code at once: after the log line and the write
    attempt nothing else happens, no message is asked for or read, and
    no time passes. *)
Theorem write_failure_is_returned (fuel : nat) (addr cmd wf wb : Z)
    (w : world) (r : Z) (rest : list Z) :
  write_rets w = r :: rest ->
  r < 0 ->
  exists w',
    run_command fuel addr cmd wf wb w = Ret r w'
    /\ trace w' =
       (trace w ++
        [EvLog ("Writing "
                ++ fmt_u (uint8_t (Z.lor cmd (Z.lor GR_ENABLE GR_RPTEN)))
                ++ " to ctrl register");
         EvWriteRegister [uint8_t (Z.lor cmd (Z.lor GR_ENABLE GR_RPTEN))]
                         (addr + GR_CTRL) 1])%list
    /\ clock w' = clock w
    /\ msg_counts w' = msg_counts w
    /\ msg_reads w' = msg_reads w.
Proof.
  intros Hw Hr.
  unfold mxt_gr_run_command, write_command, bind, LOG, mxt_write_register.
  cbn [write_rets emit]. rewrite Hw.
  rewrite (negative_ltb r Hr). unfold ret.
  eexists. split; [reflexivity|]. cbn. rewrite <- app_assoc.
  repeat split; reflexivity.
Qed.

(** The payload bytes of a message that fits [buf] are printed one by
    one, and nothing else happens. *)
Lemma print_msg_bytes_fits steps :
  forall byte len buf w,
    1 <= byte -> len <= sizeof_buf -> sizeof_buf - byte <= Z.of_nat steps ->
    exists w',
      print_msg_bytes steps byte len buf w = Ret tt w'
      /\ silent w w'
      /\ stdout (trace w') =
         (stdout (trace w)
          ++ map (fun i => (fmt_02X (buf_get buf (Z.of_nat i)) ++ " ")%string)
                 (seq (Z.to_nat byte) (Z.to_nat (len - byte))))%list.
Proof.
  unfold sizeof_buf.
  induction steps as [|n IH]; intros byte len buf w Hb Hl Hs;
    cbn [print_msg_bytes]; destruct (byte <? len) eqn:E.
  - apply Z.ltb_lt in E. lia.
  - apply Z.ltb_ge in E. exists w. split; [reflexivity|].
    split; [apply silent_refl|].
    replace (Z.to_nat (len - byte)) with 0%nat by lia.
    simpl. rewrite app_nil_r. reflexivity.
  - apply Z.ltb_lt in E.
    replace (byte <? sizeof_buf) with true
      by (symmetry; apply Z.ltb_lt; unfold sizeof_buf; lia).
    unfold bind at 1. unfold printf at 1.
    unfold uint16_t. rewrite Z.mod_small by lia.
    destruct (IH (byte + 1) len buf
                 (emit (EvPrintf (fmt_02X (buf_get buf byte) ++ " ")) w))
      as (w' & H & Hsil & O); try lia.
    exists w'. split; [exact H|]. split.
    + eapply silent_trans; [|exact Hsil]. apply silent_emit_text. reflexivity.
    + rewrite O. cbn [trace emit]. rewrite stdout_app. cbn [stdout].
      rewrite <- app_assoc. f_equal.
      replace (Z.to_nat (len - byte)) with (S (Z.to_nat (len - (byte + 1))))
        by lia.
      cbn [seq map app]. rewrite Z2Nat.id by lia.
      replace (Z.to_nat (byte + 1)) with (S (Z.to_nat byte)) by lia.
      reflexivity.
  - apply Z.ltb_ge in E. exists w. split; [reflexivity|].
    split; [apply silent_refl|].
    replace (Z.to_nat (len - byte)) with 0%nat by lia.
    simpl. rewrite app_nil_r. reflexivity.
Qed.

(** A read that is not taken for a T66 message: the drain goes on. *)
Lemma read_one_message_skips buf w rd rest :
  msg_reads w = rd :: rest ->
  is_t66_read T66 w rd = false ->
  exists w',
    read_one buf w = Ret (None, snd rd) w'
    /\ msg_reads w' = rest
    /\ msg_counts w' = msg_counts w
    /\ clock w' = clock w
    /\ report_ids w' = report_ids w
    /\ stdout (trace w') = (stdout (trace w) ++ skipped_text T6 w rd)%list.
Proof.
  intros Hm Hq. destruct rd as [r b].
  unfold read_one_message, bind, mxt_get_msg_bytes. rewrite Hm.
  unfold is_t66_read in Hq. unfold skipped_text. cbn [fst snd] in *.
  destruct (size_t r >? 0); cbn [andb] in *.
  - unfold report_id_to_type, LOG. cbn [report_ids emit set_msg_reads].
    rewrite Hq.
    destruct (report_ids w (buf_get b 0) =? T6);
      eexists; (split; [reflexivity|]); cbn; rewrite !stdout_app; cbn;
      rewrite ?app_nil_r; repeat split; reflexivity.
  - eexists; (split; [reflexivity|]); cbn; rewrite !stdout_app; cbn;
      rewrite ?app_nil_r; repeat split; reflexivity.
Qed.

(** A T66 message that fits [buf]: its bytes and its state are printed
    and the state is handed back. *)
Lemma read_one_message_t66 buf w r b rest :
  msg_reads w = (r, b) :: rest ->
  0 < size_t r <= sizeof_buf ->
  report_ids w (buf_get b 0) = T66 ->
  exists w',
    read_one buf w = Ret (Some (buf_get b 1), b) w'
    /\ msg_reads w' = rest
    /\ msg_counts w' = msg_counts w
    /\ clock w' = clock w
    /\ stdout (trace w') =
       (stdout (trace w) ++ msg_bytes_text (size_t r) b
        ++ [newline; t66_state_text (buf_get b 1)])%list.
Proof.
  intros Hm [Hl Hu] Ht.
  unfold read_one_message. unfold bind at 1. unfold mxt_get_msg_bytes.
  rewrite Hm. cbn [fst snd].
  replace (size_t r >? 0) with true
    by (symmetry; rewrite Z.gtb_ltb; apply Z.ltb_lt; exact Hl).
  unfold bind at 1. unfold report_id_to_type. cbn [report_ids emit set_msg_reads].
  rewrite Ht, Z.eqb_refl.
  unfold bind at 1. unfold LOG at 1.
  match goal with
  | |- context [bind (print_msg_bytes ?n 1 ?len b) ?k ?w0] =>
      destruct (print_msg_bytes_fits n 1 len b w0) as (w1 & P & Hsil & O);
        [lia|exact Hu|vm_compute; discriminate|];
        rewrite (bind_Ret _ _ _ _ _ P)
  end.
  unfold bind, printf, mxt_gr_print_state, printf, ret.
  eexists. split; [reflexivity|].
  destruct Hsil as [_ Sc _ _ _ _ Smc Smr].
  cbn [msg_reads msg_counts clock trace emit].
  rewrite Smr, Smc, Sc. cbn [msg_reads msg_counts clock trace emit set_msg_reads].
  repeat split; try reflexivity.
  rewrite !stdout_app, O. cbn [trace emit set_msg_reads].
  rewrite !stdout_app. cbn [stdout]. rewrite !app_nil_r, <- !app_assoc.
  unfold msg_bytes_text.
  replace (Z.to_nat (size_t r - 1)) with (Z.to_nat (size_t r) - 1)%nat by lia.
  reflexivity.
Qed.

Lemma is_t66_read_ids (w w1 : world) (l : list (Z * list Z)) :
  report_ids w1 = report_ids w ->
  forallb (fun rd => negb (is_t66_read T66 w1 rd)) l
  = forallb (fun rd => negb (is_t66_read T66 w rd)) l.
Proof. intros H. unfold is_t66_read. rewrite H. reflexivity. Qed.

Lemma skipped_text_ids (w w1 : world) (l : list (Z * list Z)) :
  report_ids w1 = report_ids w ->
  flat_map (skipped_text T6 w1) l = flat_map (skipped_text T6 w) l.
Proof.
  intros H. induction l as [|rd l IH]; [reflexivity|].
  cbn [flat_map]. rewrite IH. unfold skipped_text. rewrite H. reflexivity.
Qed.

(** The drain stops at the first T66 message. *)
Lemma drain_messages_first_t66 pre :
  forall n buf w r b rest,
    msg_reads w = (pre ++ (r, b) :: rest)%list ->
    forallb (fun rd => negb (is_t66_read T66 w rd)) pre = true ->
    0 < size_t r <= sizeof_buf ->
    report_ids w (buf_get b 0) = T66 ->
    (List.length pre < n)%nat ->
    exists w',
      drain n buf w = Ret (Some (buf_get b 1), b) w'
      /\ msg_reads w' = rest
      /\ msg_counts w' = msg_counts w
      /\ clock w' = clock w
      /\ stdout (trace w') =
         (stdout (trace w) ++ flat_map (skipped_text T6 w) pre
          ++ msg_bytes_text (size_t r) b
          ++ [newline; t66_state_text (buf_get b 1)])%list.
Proof.
  induction pre as [|rd pre IH]; intros n buf w r b rest Hm Hq Hs Ht Hn;
    (destruct n as [|n]; [simpl in Hn; lia|]); cbn [drain_messages].
  - destruct (read_one_message_t66 buf w r b rest Hm Hs Ht)
      as (w' & H & R).
    rewrite (bind_Ret _ _ _ _ _ H). cbn [fst]. exists w'.
    split; [reflexivity|exact R].
  - cbn [forallb] in Hq. apply andb_true_iff in Hq. destruct Hq as [Hq1 Hq].
    apply negb_true_iff in Hq1.
    destruct (read_one_message_skips buf w rd (pre ++ (r, b) :: rest) Hm Hq1)
      as (w1 & H & M1 & C1 & K1 & I1 & O1).
    rewrite (bind_Ret _ _ _ _ _ H). cbn [fst snd].
    destruct (IH n (snd rd) w1 r b rest M1) as (w' & H' & M' & C' & K' & O').
    + rewrite (is_t66_read_ids w w1 pre I1). exact Hq.
    + exact Hs.
    + rewrite I1. exact Ht.
    + simpl in Hn. lia.
    + exists w'. split; [exact H'|].
      repeat split; try congruence.
      rewrite O', O1, (skipped_text_ids w w1 pre I1). cbn [flat_map].
      rewrite <- !app_assoc. reflexivity.
Qed.

(** X5. The first T66 message of the first batch ends the poll.  When the
    messages announced first hold a T66 message that fits [buf], read
    after any number of messages of other objects, the poller returns 0
    with that message's second byte as the state.  It has printed the T6
    status of each T6 message it passed, in order, then the T66 payload
    and state line; it has not slept, and the messages behind the T66
    message are still queued. *)
Theorem first_t66_message_wins (fuel : nat) (timeout : Z) (w : world)
    (c : Z) (counts : list Z) (pre rest : list (Z * list Z))
    (r : Z) (b : list Z) :
  0 <= timeout ->
  msg_counts w = c :: counts ->
  msg_reads w = (pre ++ (r, b) :: rest)%list ->
  forallb (fun rd => negb (is_t66_read T66 w rd)) pre = true ->
  Z.of_nat (List.length pre) < uint16_t c ->
  0 < size_t r <= sizeof_buf ->
  report_ids w (buf_get b 0) = T66 ->
  exists w',
    get_status (S fuel) timeout w = Ret (0, Some (buf_get b 1)) w'
    /\ msg_reads w' = rest
    /\ msg_counts w' = counts
    /\ clock w' = clock w
    /\ slept (trace w') = slept (trace w)
    /\ stdout (trace w') =
       (stdout (trace w) ++ flat_map (skipped_text T6 w) pre
        ++ msg_bytes_text (size_t r) b
        ++ [newline; t66_state_text (buf_get b 1)])%list.
Proof.
  intros Ht Hc Hm Hq Hn Hs Hid.
  unfold mxt_gr_get_status. unfold bind at 1. unfold time at 1.
  cbn [mxt_gr_get_status_loop]. unfold bind at 1. unfold time at 1.
  replace (clock w - clock w >? timeout) with false
    by (symmetry; rewrite Z.gtb_ltb; apply Z.ltb_ge; lia).
  unfold bind at 1. unfold mxt_get_msg_count. rewrite Hc.
  replace (uint16_t c >? 0) with true
    by (symmetry; rewrite Z.gtb_ltb; apply Z.ltb_lt; lia).
  set (w1 := set_msg_counts counts (emit (EvGetMsgCount c) w)).
  destruct (drain_messages_first_t66 pre (Z.to_nat (uint16_t c)) [] w1 r b rest)
    as (w' & H & M & C & K & O); auto; try lia.
  rewrite (bind_Ret _ _ _ _ _ H). cbn [fst]. exists w'.
  split; [reflexivity|].
  pose proof (steady_drain_messages T66 T6 (Z.to_nat (uint16_t c)) [] w1) as Hst.
  rewrite H in Hst. cbn [world_of] in Hst.
  repeat split; try assumption.
  - rewrite (steady_slept _ _ Hst). unfold w1. cbn. rewrite slept_app. cbn. lia.
  - rewrite O. unfold w1. cbn. rewrite stdout_app. cbn.
    rewrite app_nil_r. reflexivity.
Qed.

End GrMore.

Lemma write_failure_is_returned_witness :
  exists w',
    mxt_gr_run_command 66 6 32 300 GR_FCALCMD_PRIME GR_STATE_PRIMED
      GR_STATE_PRIMED
      (mkWorld 1000 0 bench_object_table bench_report_ids [-5] [1]
               [t66_msg 2] [])
    = Ret (-5) w'
    /\ msg_reads w' = [t66_msg 2].
Proof.
  destruct (write_failure_is_returned 66 6 32 300 GR_FCALCMD_PRIME
              GR_STATE_PRIMED GR_STATE_PRIMED
              (mkWorld 1000 0 bench_object_table bench_report_ids [-5] [1]
                       [t66_msg 2] [])
              (-5) [] eq_refl ltac:(lia))
    as (w' & H & _ & _ & _ & R).
  exists w'. split; assumption.
Defined.

(** ** Staying inside [buf] *)

Lemma well_sized_suffix (w w' : world) :
  reads_suffix w w' -> well_sized w = true -> well_sized w' = true.
Proof.
  intros [pre H] Hw. unfold well_sized in *. rewrite H, forallb_app in Hw.
  apply andb_true_iff in Hw. apply Hw.
Qed.

Lemma reads_suffix_refl (w : world) : reads_suffix w w.
Proof. exists []. reflexivity. Qed.

Lemma reads_suffix_trans (a b c : world) :
  reads_suffix a b -> reads_suffix b c -> reads_suffix a c.
Proof.
  intros [p1 H1] [p2 H2]. exists (p1 ++ p2)%list.
  rewrite H1, H2, app_assoc. reflexivity.
Qed.

Lemma polling_reads_suffix (w w' : world) : polling w w' -> reads_suffix w w'.
Proof. intros [_ H _]. exact H. Qed.

Lemma in_bounds_bind {A B} (m : M A) (k : A -> M B) (w : world) :
  in_bounds (m w) ->
  (forall a w1, m w = Ret a w1 -> in_bounds (k a w1)) ->
  in_bounds (bind m k w).
Proof.
  unfold bind. destruct (m w) as [a w1|w1|w1]; simpl; auto.
Qed.

Section GrBounds.

Variables T66 T6 ONF : Z.

Local Abbreviation read_one := (read_one_message T66 T6).
Local Abbreviation drain := (drain_messages T66 T6).
Local Abbreviation poll_loop := (mxt_gr_get_status_loop T66 T6).
Local Abbreviation get_status := (mxt_gr_get_status T66 T6).
Local Abbreviation run_command := (mxt_gr_run_command T66 T6).
Local Abbreviation store_golden_refs := (mxt_store_golden_refs T66 T6 ONF).

(** A message longer than [buf]: the print loop leaves the array after
    the ninth payload byte. *)
Lemma print_msg_bytes_overruns steps :
  forall byte len buf w,
    1 <= byte <= sizeof_buf -> sizeof_buf < len ->
    sizeof_buf - byte <= Z.of_nat steps ->
    exists w',
      print_msg_bytes steps byte len buf w = Undefined w'
      /\ stdout (trace w') =
         (stdout (trace w)
          ++ map (fun i => (fmt_02X (buf_get buf (Z.of_nat i)) ++ " ")%string)
                 (seq (Z.to_nat byte) (Z.to_nat (sizeof_buf - byte))))%list.
Proof.
  unfold sizeof_buf.
  induction steps as [|n IH]; intros byte len buf w Hb Hl Hs;
    cbn [print_msg_bytes];
    (replace (byte <? len) with true by (symmetry; apply Z.ltb_lt; lia));
    destruct (byte <? sizeof_buf) eqn:E; unfold sizeof_buf in E.
  - apply Z.ltb_lt in E. lia.
  - apply Z.ltb_ge in E. exists w. split; [reflexivity|].
    replace (Z.to_nat (10 - byte)) with 0%nat by lia.
    simpl. rewrite app_nil_r. reflexivity.
  - apply Z.ltb_lt in E.
    unfold bind at 1. unfold printf at 1.
    unfold uint16_t. rewrite Z.mod_small by lia.
    destruct (IH (byte + 1) len buf
                 (emit (EvPrintf (fmt_02X (buf_get buf byte) ++ " ")) w))
      as (w' & H & O); try lia.
    exists w'. split; [exact H|].
    rewrite O. cbn [trace emit]. rewrite stdout_app. cbn [stdout].
    rewrite <- app_assoc. f_equal.
    replace (Z.to_nat (10 - byte)) with (S (Z.to_nat (10 - (byte + 1)))) by lia.
    cbn [seq map app]. rewrite Z2Nat.id by lia.
    replace (Z.to_nat (byte + 1)) with (S (Z.to_nat byte)) by lia.
    reflexivity.
  - apply Z.ltb_ge in E. exists w. split; [reflexivity|].
    replace (Z.to_nat (10 - byte)) with 0%nat by lia.
    simpl. rewrite app_nil_r. reflexivity.
Qed.

(** X6. A T66 message whose reported length is above [sizeof(buf)] makes
    the poller read outside [buf]: it prints the nine payload bytes the
    array holds and then indexes past its end.  A negative return value
    of [mxt_get_msg_bytes] is such a length once stored in [size_t]. *)
Theorem oversized_t66_message_overruns (fuel : nat) (timeout : Z) (w : world)
    (c : Z) (counts : list Z) (r : Z) (b : list Z)
    (rest : list (Z * list Z)) :
  0 <= timeout ->
  msg_counts w = c :: counts ->
  0 < uint16_t c ->
  msg_reads w = (r, b) :: rest ->
  sizeof_buf < size_t r ->
  report_ids w (buf_get b 0) = T66 ->
  exists w',
    get_status (S fuel) timeout w = Undefined w'
    /\ stdout (trace w')
       = (stdout (trace w) ++ msg_bytes_text sizeof_buf b)%list.
Proof.
  intros Ht Hc Hn Hm Hs Hid.
  unfold mxt_gr_get_status. unfold bind at 1. unfold time at 1.
  cbn [mxt_gr_get_status_loop]. unfold bind at 1. unfold time at 1.
  replace (clock w - clock w >? timeout) with false
    by (symmetry; rewrite Z.gtb_ltb; apply Z.ltb_ge; lia).
  unfold bind at 1. unfold mxt_get_msg_count. rewrite Hc.
  replace (uint16_t c >? 0) with true
    by (symmetry; rewrite Z.gtb_ltb; apply Z.ltb_lt; lia).
  destruct (Z.to_nat (uint16_t c)) as [|n] eqn:En; [lia|].
  cbn [drain_messages]. unfold read_one_message.
  unfold bind at 1. unfold bind at 1. unfold bind at 1.
  unfold mxt_get_msg_bytes. cbn [msg_reads emit set_msg_counts].
  rewrite Hm. cbn [fst snd].
  assert (Hs' : sizeof_buf < size_t r) by exact Hs. unfold sizeof_buf in Hs'.
  replace (size_t r >? 0) with true
    by (symmetry; rewrite Z.gtb_ltb; apply Z.ltb_lt; lia).
  unfold bind at 1. unfold report_id_to_type.
  cbn [report_ids emit set_msg_reads set_msg_counts].
  rewrite Hid, Z.eqb_refl.
  unfold bind at 1. unfold LOG at 1.
  match goal with
  | |- context [bind (print_msg_bytes ?k 1 ?len b) ?f ?w0] =>
      destruct (print_msg_bytes_overruns k 1 len b w0) as (w1 & P & O);
        [unfold sizeof_buf; lia|exact Hs|vm_compute; discriminate|];
        unfold bind at 1; rewrite P
  end.
  exists w1. split; [reflexivity|].
  rewrite O. cbn. rewrite !stdout_app. cbn. rewrite !app_nil_r. reflexivity.
Qed.

Lemma read_one_message_in_bounds buf w :
  well_sized w = true -> in_bounds (read_one buf w).
Proof.
  intros Hw. unfold read_one_message. unfold bind at 1. unfold mxt_get_msg_bytes.
  unfold well_sized in Hw.
  destruct (msg_reads w) as [|[r b] rest]; cbn [fst snd].
  - exact I.
  - cbn [forallb fst] in Hw. apply andb_true_iff in Hw. destruct Hw as [Hr _].
    apply Z.leb_le in Hr.
    destruct (size_t r >? 0); [|exact I].
    unfold bind at 1. unfold report_id_to_type.
    unfold bind at 1. unfold LOG at 1.
    match goal with
    | |- context [if ?c =? T66 then _ else _] => destruct (c =? T66)
    end.
    + match goal with
      | |- context [bind (print_msg_bytes ?k 1 ?len b) ?f ?w0] =>
          destruct (print_msg_bytes_fits k 1 len b w0) as (w1 & P & _ & _);
            [lia|exact Hr|vm_compute; discriminate|];
            rewrite (bind_Ret _ _ _ _ _ P)
      end.
      exact I.
    + match goal with
      | |- context [if ?c =? T6 then _ else _] => destruct (c =? T6)
      end; exact I.
Qed.

Lemma drain_messages_in_bounds n :
  forall buf w, well_sized w = true -> in_bounds (drain n buf w).
Proof.
  induction n as [|n IH]; intros buf w Hw; cbn [drain_messages]; [exact I|].
  apply in_bounds_bind; [apply read_one_message_in_bounds, Hw|].
  intros [st b] w1 H. cbn [fst snd]. destruct st; [exact I|].
  apply IH. eapply well_sized_suffix; [|exact Hw].
  pose proof (steady_read_one_message T66 T6 buf w) as S1.
  rewrite H in S1. apply polling_reads_suffix, steady_polling, S1.
Qed.

Lemma poll_loop_in_bounds fuel :
  forall start_time timeout buf w,
    well_sized w = true -> in_bounds (poll_loop fuel start_time timeout buf w).
Proof.
  induction fuel as [|n IH]; intros st to buf w Hw; [exact I|].
  cbn [mxt_gr_get_status_loop]. unfold bind at 1. unfold time at 1.
  destruct (clock w - st >? to); [exact I|].
  apply in_bounds_bind.
  { unfold mxt_get_msg_count. destruct (msg_counts w); exact I. }
  intros c w1 Hc.
  assert (Hw1 : well_sized w1 = true).
  { eapply well_sized_suffix; [|exact Hw].
    pose proof (polling_mxt_get_msg_count w) as P. rewrite Hc in P.
    apply polling_reads_suffix, P. }
  apply in_bounds_bind.
  { destruct (uint16_t c >? 0); [apply drain_messages_in_bounds, Hw1|exact I]. }
  intros [st' b] w2 Hd. cbn [fst snd]. destruct st'; [exact I|].
  unfold bind at 1. unfold sleep at 1. apply IH.
  change (well_sized w2 = true).
  eapply well_sized_suffix; [|exact Hw1].
  apply polling_reads_suffix, steady_polling.
  eapply drain_or_skip_steady, Hd.
Qed.

Lemma write_command_leaves_messages addr cmd w r w1 :
  write_command addr cmd w = Ret r w1 ->
  msg_reads w1 = msg_reads w /\ clock w1 = clock w
  /\ report_ids w1 = report_ids w /\ r = hd 0 (write_rets w).
Proof.
  unfold write_command, bind, LOG, mxt_write_register. cbn [write_rets emit].
  destruct (write_rets w); intros H; injection H as <- <-; repeat split.
Qed.

(** A command only consumes read answers. *)
Lemma run_command_reads_suffix fuel addr cmd wf wb w :
  reads_suffix w (world_of (run_command fuel addr cmd wf wb w)).
Proof.
  destruct (write_command_world addr cmd w) as (r & w1 & E & _).
  destruct (write_command_leaves_messages _ _ _ _ _ E) as (M & _).
  unfold mxt_gr_run_command. rewrite world_of_bind, E.
  destruct (r <? 0); [exists []; simpl; congruence|].
  apply reads_suffix_trans with w1; [exists []; simpl; congruence|].
  apply polling_reads_suffix.
  generalize w1. change (preserves polling
    (r0 <- get_status fuel GR_TIMEOUT ;;
     if fst r0 <? 0 then ret (fst r0) else
     match snd r0 with
     | None => fun w => Undefined w
     | Some actual_state =>
         if entered_state actual_state wf wb then ret 0
         else printf ("Failed to enter correct state" ++ newline) ;;; ret (-1)
     end)).
  frame.
Qed.

(** The poller never hands back a non-negative result without a
    state. *)
Lemma get_status_state fuel timeout w r s w' :
  get_status fuel timeout w = Ret (r, s) w' ->
  (r <? 0) = false -> exists state, s = Some state.
Proof.
  intros H Hr. apply Z.ltb_ge in Hr.
  unfold mxt_gr_get_status, bind, time in H.
  destruct (Z.eq_dec r 0) as [->|E].
  - eapply poll_loop_success, H.
  - apply poll_loop_timeout in H; [|exact E]. lia.
Qed.

Lemma run_command_in_bounds fuel addr cmd wf wb w :
  well_sized w = true -> in_bounds (run_command fuel addr cmd wf wb w).
Proof.
  intros Hw. unfold mxt_gr_run_command.
  destruct (write_command_world addr cmd w) as (r & w1 & E & _).
  destruct (write_command_leaves_messages _ _ _ _ _ E) as (M & _).
  rewrite (bind_Ret _ _ _ _ _ E). destruct (r <? 0); [exact I|].
  apply in_bounds_bind.
  - unfold mxt_gr_get_status, bind, time. apply poll_loop_in_bounds.
    unfold well_sized in *. rewrite M. exact Hw.
  - intros [r2 s] w2 H. cbn [fst snd].
    destruct (r2 <? 0) eqn:E2; [exact I|].
    destruct (get_status_state _ _ _ _ _ _ H E2) as [state ->].
    destruct (entered_state state wf wb); exact I.
Qed.

(** X7. As long as every message read reports a length that fits [buf],
    neither the poller nor the whole procedure ever reads outside [buf]
    or uses the state before the poller has set it. *)
Theorem reads_stay_inside_buf (fuel : nat) (timeout : Z) (w : world) :
  well_sized w = true ->
  in_bounds (get_status fuel timeout w)
  /\ in_bounds (store_golden_refs fuel w).
Proof.
  intros Hw. split.
  - unfold mxt_gr_get_status, bind, time. apply poll_loop_in_bounds, Hw.
  - unfold mxt_store_golden_refs.
    unfold bind at 1. unfold mxt_msg_reset.
    destruct (reset_ret w <? 0); [exact I|].
    unfold bind at 1. unfold get_object_address.
    match goal with |- context [if ?c then _ else _] => destruct c end;
      [exact I|].
    unfold bind at 1. unfold printf at 1.
    set (addr := uint16_t _).
    set (w0 := emit (EvPrintf ("Priming" ++ newline)) (emit EvMsgReset w)).
    assert (H0 : well_sized w0 = true) by exact Hw.
    apply in_bounds_bind; [apply run_command_in_bounds, H0|].
    intros r1 w1 E1. destruct (r1 <? 0); [exact I|].
    unfold bind at 1. unfold printf at 1.
    assert (H1 : well_sized w1 = true).
    { eapply well_sized_suffix; [|exact H0].
      pose proof (run_command_reads_suffix fuel addr GR_FCALCMD_PRIME
                    GR_STATE_PRIMED GR_STATE_PRIMED w0) as S.
      rewrite E1 in S. exact S. }
    apply in_bounds_bind; [apply run_command_in_bounds; exact H1|].
    intros r2 w2 E2. destruct (r2 <? 0); [exact I|].
    unfold bind at 1. unfold printf at 1.
    assert (H2 : well_sized w2 = true).
    { eapply well_sized_suffix; [|exact H1].
      pose proof (run_command_reads_suffix fuel addr GR_FCALCMD_GENERATE
                    GR_STATE_GENERATED GR_STATE_FCALPASS
                    (emit (EvPrintf ("Generating" ++ newline)) w1)) as S.
      rewrite E2 in S. exact S. }
    apply in_bounds_bind; [apply run_command_in_bounds; exact H2|].
    intros r3 w3 E3. destruct (r3 <? 0); exact I.
Qed.

End GrBounds.

(** ** Time *)





Section GrTime.

Variables T66 T6 ONF : Z.

Local Abbreviation poll_loop := (mxt_gr_get_status_loop T66 T6).
Local Abbreviation get_status := (mxt_gr_get_status T66 T6).
Local Abbreviation run_command := (mxt_gr_run_command T66 T6).
Local Abbreviation store_golden_refs := (mxt_store_golden_refs T66 T6 ONF).

Lemma drain_or_skip_world_steady (count : Z) buf w1 :
  steady w1
    (world_of ((if count >? 0
                then drain_messages T66 T6 (Z.to_nat count) buf
                else ret (None, buf)) w1)).
Proof.
  destruct (count >? 0); [apply steady_drain_messages|apply steady_refl].
Qed.

(** However the loop ends, the clock is at most one second past the
    bound, and every second that passed was slept. *)
Lemma poll_loop_clock fuel :
  forall start_time timeout buf w,
    let w' := world_of (poll_loop fuel start_time timeout buf w) in
    clock w <= clock w' <= Z.max (clock w) (start_time + timeout + 1)
    /\ slept (trace w') - slept (trace w) = clock w' - clock w.
Proof.
  induction fuel as [|n IH]; intros st to buf w; cbn zeta.
  - simpl. lia.
  - remember (poll_loop (S n) st to buf w) as o eqn:Ho.
    cbn [mxt_gr_get_status_loop] in Ho. unfold bind at 1 in Ho.
    unfold time at 1 in Ho.
    destruct (clock w - st >? to) eqn:E.
    + subst o. unfold bind, printf, ret. cbn [world_of trace clock emit].
      rewrite slept_app. cbn [slept]. lia.
    + rewrite Z.gtb_ltb in E; apply Z.ltb_ge in E.
      destruct (mxt_get_msg_count_world w) as (c & w1 & Hc & T1 & K1).
      rewrite (bind_Ret _ _ _ _ _ Hc) in Ho. unfold bind at 1 in Ho.
      pose proof (drain_or_skip_world_steady (uint16_t c) buf w1) as S2.
      assert (B1 : slept (trace w1) = slept (trace w)).
      { rewrite T1, slept_app. cbn. lia. }
      destruct ((if uint16_t c >? 0
                 then drain_messages T66 T6 (Z.to_nat (uint16_t c)) buf
                 else ret (None, buf)) w1) as [[st' b] w2|w2|w2];
        cbn [world_of] in S2;
        pose proof (steady_clock _ _ S2) as K2;
        pose proof (steady_slept _ _ S2) as L2;
        try (subst o; cbn [world_of]; lia).
      cbn [fst snd] in Ho. destruct st' as [state|].
      { subst o. cbn [world_of ret]. lia. }
      unfold bind at 1 in Ho. unfold sleep at 1 in Ho.
      specialize (IH st to b (emit (EvSleep 1) (set_clock (clock w2 + 1) w2))).
      cbn zeta in IH. rewrite <- Ho in IH.
      cbn [clock trace emit set_clock] in IH.
      rewrite slept_app in IH. cbn [slept] in IH. lia.
Qed.

(** X8. However a poll with a bound of zero or more ends, at most
    [timeout + 1] seconds have passed since it began, the clock has not
    gone back, and all of that time was spent in [sleep]. *)
Theorem poll_waits_at_most (fuel : nat) (timeout : Z) (w : world) :
  0 <= timeout ->
  let w' := world_of (get_status fuel timeout w) in
  clock w <= clock w' <= clock w + timeout + 1
  /\ slept (trace w') - slept (trace w) = clock w' - clock w.
Proof.
  intros Ht. unfold mxt_gr_get_status, bind, time. cbn zeta.
  pose proof (poll_loop_clock fuel (clock w) timeout [] w) as H.
  cbn zeta in H. lia.
Qed.








End GrTime.

(** ** The procedure as a whole *)

Section GrProcedure.

Variables T66 T6 ONF : Z.

Local Abbreviation poll_loop := (mxt_gr_get_status_loop T66 T6).
Local Abbreviation get_status := (mxt_gr_get_status T66 T6).
Local Abbreviation run_command := (mxt_gr_run_command T66 T6).
Local Abbreviation store_golden_refs := (mxt_store_golden_refs T66 T6 ONF).

(** A command returns 0 or a negative value. *)
Lemma run_command_result fuel addr cmd wf wb w r w' :
  run_command fuel addr cmd wf wb w = Ret r w' -> r < 0 \/ r = 0.
Proof.
  unfold mxt_gr_run_command. intros H.
  apply bind_Ret_inv in H. destruct H as (r1 & w1 & _ & H).
  destruct (r1 <? 0) eqn:E1.
  { injection H as <- _. left. apply Z.ltb_lt, E1. }
  apply bind_Ret_inv in H. destruct H as ([r2 s] & w2 & _ & H).
  cbn [fst snd] in H. destruct (r2 <? 0) eqn:E2.
  { injection H as <- _. left. apply Z.ltb_lt, E2. }
  destruct s as [state|]; [|discriminate].
  destruct (entered_state state wf wb).
  - injection H as <- _. right. reflexivity.
  - unfold bind, printf, ret in H. injection H as <- _. left. lia.
Qed.

(** X10. A device that never sends a T66 message fails in the Prime
    phase: the procedure writes the Prime command, polls for 31 seconds,
    prints "Timeout" and returns -1; no other register write is made. *)
Theorem silent_device_fails_in_prime (fuel : nat) (w : world) :
  (32 <= fuel)%nat ->
  0 <= reset_ret w ->
  uint16_t (object_table w T66 0) <> ONF ->
  0 <= hd 0 (write_rets w) ->
  quiet T66 w = true ->
  exists w',
    store_golden_refs fuel w = Ret (-1) w'
    /\ writes (trace w')
       = (writes (trace w)
          ++ [([7], uint16_t (object_table w T66 0) + GR_CTRL, 1)])%list
    /\ clock w' = clock w + 31
    /\ last_line w' = "Timeout" ++ newline.
Proof.
  intros Hf Hr Ha Hw Hq.
  rewrite (store_golden_refs_start T66 T6 ONF fuel w Hr Ha).
  set (addr := uint16_t (object_table w T66 0)).
  set (w0 := emit (EvPrintf ("Priming" ++ newline)) (emit EvMsgReset w)).
  destruct (write_command_world addr GR_FCALCMD_PRIME w0) as (r1 & w1 & E & _).
  destruct (write_command_leaves_messages _ _ _ _ _ E) as (M1 & K1 & I1 & R1).
  assert (Q1 : quiet T66 w1 = true).
  { unfold quiet, is_t66_read in *. rewrite M1, I1. exact Hq. }
  pose proof (poll_loop_quiet T66 T6 fuel (clock w1) GR_TIMEOUT [] w1 Q1) as P.
  destruct (poll_loop fuel (clock w1) GR_TIMEOUT [] w1) as [rs w2|w2|w2] eqn:L;
    [|contradiction|unfold GR_TIMEOUT in P; lia].
  destruct P as [-> Hl].
  pose proof (poll_loop_timeout T66 T6 fuel _ _ _ _ _ _ _ L ltac:(lia)) as T.
  cbn zeta in T. destruct T as (_ & _ & _ & K2 & _).
  assert (C : run_command fuel addr GR_FCALCMD_PRIME GR_STATE_PRIMED
                GR_STATE_PRIMED w0 = Ret (-1) w2).
  { unfold mxt_gr_run_command. rewrite (bind_Ret _ _ _ _ _ E).
    rewrite (nonnegative_ltb r1) by (rewrite R1; exact Hw).
    unfold bind at 1. unfold mxt_gr_get_status. unfold bind at 1.
    unfold time at 1. rewrite L. reflexivity. }
  exists w2. rewrite (bind_Ret _ _ _ _ _ C). split; [reflexivity|].
  split; [|split; [|exact Hl]].
  - rewrite (run_command_Ret_writes _ _ _ _ _ _ _ _ _ _ C).
    unfold w0. rewrite !writes_emit. simpl. rewrite !app_nil_r. reflexivity.
  - rewrite K2, K1. unfold GR_TIMEOUT. cbn [clock emit w0]. lia.
Qed.

(** X11. However the procedure ends, the registers it has written are a
    beginning of the sequence Prime, Generate, Store (bytes 7, 11, 15),
    each one byte at the control register of the T66 object.  Its result
    is never positive, and a result of 0 means that all three were
    written and "Done" was printed last. *)
Theorem procedure_writes_only_its_commands (fuel : nat) (w : world) :
  let addr := uint16_t (object_table w T66 0) in
  let o := store_golden_refs fuel w in
  (exists k,
      writes (trace (world_of o))
      = (writes (trace w) ++ firstn k (golden_ref_commands addr))%list)
  /\ forall r w',
      o = Ret r w' ->
      r <= 0
      /\ (r = 0 ->
          writes (trace w')
          = (writes (trace w) ++ golden_ref_commands addr)%list
          /\ last_line w' = "Done" ++ newline).
Proof.
  intros addr o. remember o as o' eqn:Ho. subst o.
  unfold mxt_store_golden_refs, ret in Ho.
  unfold bind at 1 in Ho. unfold mxt_msg_reset in Ho.
  assert (Wr : writes (trace (emit EvMsgReset w)) = writes (trace w)).
  { rewrite writes_emit. simpl. apply app_nil_r. }
  destruct (reset_ret w <? 0) eqn:E0.
  { apply Z.ltb_lt in E0. subst o'. split.
    - exists 0%nat. simpl. rewrite app_nil_r. exact Wr.
    - intros r w' H. injection H as <- <-. split; [lia|intros; lia]. }
  unfold bind at 1 in Ho. unfold get_object_address in Ho.
  cbn [object_table emit] in Ho. fold addr in Ho. destruct (addr =? ONF).
  { subst o'. split.
    - exists 0%nat. simpl. rewrite app_nil_r. exact Wr.
    - intros r w' H. injection H as <- <-. split; [lia|intros; lia]. }
  unfold bind at 1 in Ho. unfold printf at 1 in Ho.
  set (w0 := emit (EvPrintf ("Priming" ++ newline)) (emit EvMsgReset w)) in Ho.
  assert (W0 : writes (trace w0) = writes (trace w)).
  { unfold w0. rewrite writes_emit, Wr. simpl. apply app_nil_r. }
  pose proof (run_command_writes T66 T6 fuel addr GR_FCALCMD_PRIME
                GR_STATE_PRIMED GR_STATE_PRIMED w0) as X1.
  rewrite W0 in X1. unfold bind at 1 in Ho.
  destruct (run_command fuel addr GR_FCALCMD_PRIME GR_STATE_PRIMED
              GR_STATE_PRIMED w0) as [r1 w1|w1|w1] eqn:E1;
    cbn [world_of] in X1;
    [|subst o'; split; [exists 1%nat; exact X1|discriminate]
     |subst o'; split; [exists 1%nat; exact X1|discriminate]].
  destruct (run_command_result _ _ _ _ _ _ _ _ E1) as [N1|Z1].
  { rewrite (negative_ltb r1 N1) in Ho. subst o'.
    split; [exists 1%nat; exact X1|].
    intros r w' H. injection H as <- <-. split; [lia|intros; lia]. }
  subst r1. cbn [Z.ltb Z.compare] in Ho.
  unfold bind at 1 in Ho. unfold printf at 1 in Ho.
  set (g0 := emit (EvPrintf ("Generating" ++ newline)) w1) in Ho.
  pose proof (run_command_writes T66 T6 fuel addr GR_FCALCMD_GENERATE
                GR_STATE_GENERATED GR_STATE_FCALPASS g0) as X2.
  unfold g0 in X2 at 2. rewrite writes_emit, X1 in X2. cbn [writes] in X2.
  rewrite app_nil_r, <- app_assoc in X2. cbn [app] in X2.
  unfold bind at 1 in Ho.
  destruct (run_command fuel addr GR_FCALCMD_GENERATE GR_STATE_GENERATED
              GR_STATE_FCALPASS g0) as [r2 w2|w2|w2] eqn:E2;
    cbn [world_of] in X2;
    [|subst o'; split; [exists 2%nat; exact X2|discriminate]
     |subst o'; split; [exists 2%nat; exact X2|discriminate]].
  destruct (run_command_result _ _ _ _ _ _ _ _ E2) as [N2|Z2].
  { rewrite (negative_ltb r2 N2) in Ho. subst o'.
    split; [exists 2%nat; exact X2|].
    intros r w' H. injection H as <- <-. split; [lia|intros; lia]. }
  subst r2. cbn [Z.ltb Z.compare] in Ho.
  unfold bind at 1 in Ho. unfold printf at 1 in Ho.
  set (s0 := emit (EvPrintf ("Storing" ++ newline)) w2) in Ho.
  pose proof (run_command_writes T66 T6 fuel addr GR_FCALCMD_STORE
                GR_STATE_IDLE GR_STATE_FCALSEQDONE s0) as X3.
  unfold s0 in X3 at 2. rewrite writes_emit, X2 in X3. cbn [writes] in X3.
  rewrite app_nil_r, <- app_assoc in X3. cbn [app] in X3.
  unfold bind at 1 in Ho.
  destruct (run_command fuel addr GR_FCALCMD_STORE GR_STATE_IDLE
              GR_STATE_FCALSEQDONE s0) as [r3 w3|w3|w3] eqn:E3;
    cbn [world_of] in X3;
    [|subst o'; split; [exists 3%nat; exact X3|discriminate]
     |subst o'; split; [exists 3%nat; exact X3|discriminate]].
  destruct (run_command_result _ _ _ _ _ _ _ _ E3) as [N3|Z3].
  { rewrite (negative_ltb r3 N3) in Ho. subst o'.
    split; [exists 3%nat; exact X3|].
    intros r w' H. injection H as <- <-. split; [lia|intros; lia]. }
  subst r3. cbn [Z.ltb Z.compare] in Ho.
  unfold bind, printf in Ho. subst o'. cbn [world_of].
  assert (XD : writes (trace (emit (EvPrintf ("Done" ++ newline)) w3))
               = (writes (trace w) ++ golden_ref_commands addr)%list).
  { rewrite writes_emit, X3. simpl. rewrite app_nil_r. reflexivity. }
  split; [exists 3%nat; exact XD|].
  intros r w' H. injection H as <- <-. split; [lia|intros _].
  split; [exact XD|apply last_line_printf].
Qed.

End GrProcedure.

(** ** What a successful poll has read *)

Lemma mxt_get_msg_count_leaves_messages (w w1 : world) (c : Z) :
  mxt_get_msg_count w = Ret c w1 ->
  msg_reads w1 = msg_reads w /\ report_ids w1 = report_ids w.
Proof.
  unfold mxt_get_msg_count. destruct (msg_counts w);
    intros H; injection H as _ <-; split; reflexivity.
Qed.

Section GrFirstMatch.

Variables T66 T6 : Z.

Local Abbreviation read_one := (read_one_message T66 T6).
Local Abbreviation drain := (drain_messages T66 T6).
Local Abbreviation poll_loop := (mxt_gr_get_status_loop T66 T6).
Local Abbreviation get_status := (mxt_gr_get_status T66 T6).

Lemma is_t66_read_one_ids (w w1 : world) (rd : Z * list Z) :
  report_ids w1 = report_ids w ->
  is_t66_read T66 w1 rd = is_t66_read T66 w rd.
Proof. intros H. unfold is_t66_read. rewrite H. reflexivity. Qed.

(** One round of the drain consumes the next read answer, if there is
    one, and hands back a state exactly when it takes that answer for a
    T66 message. *)
Lemma read_one_message_inv buf w x b' w' :
  read_one buf w = Ret (x, b') w' ->
  report_ids w' = report_ids w
  /\ match msg_reads w with
     | [] => x = None /\ msg_reads w' = []
     | rd :: rest =>
         msg_reads w' = rest
         /\ ((x = None /\ is_t66_read T66 w rd = false)
             \/ (x = Some (buf_get (snd rd) 1) /\ is_t66_read T66 w rd = true))
     end.
Proof.
  intros H. unfold read_one_message in H.
  apply bind_Ret_inv in H. destruct H as ([r b] & w1 & H1 & H).
  assert (S1 : silent w1 w').
  { match type of H with
    | ?f w1 = _ =>
        assert (P : preserves silent f) by (cbv beta; frame);
          specialize (P w1); rewrite H in P; exact P
    end. }
  destruct S1 as [_ _ _ _ Si _ _ Sr].
  cbv beta in H. cbn [fst snd] in H.
  unfold mxt_get_msg_bytes in H1.
  destruct (msg_reads w) as [|[r0 b0] rest] eqn:Em.
  - injection H1 as <- <- <-.
    cbn [msg_reads report_ids emit set_msg_reads] in Si, Sr.
    rewrite Em in Sr. split; [exact Si|].
    change (size_t 0 >? 0) with false in H. injection H as <- _ _.
    split; [reflexivity|exact Sr].
  - injection H1 as <- <- <-.
    cbn [msg_reads report_ids emit set_msg_reads] in Si, Sr.
    split; [exact Si|].
    split; [exact Sr|]. unfold is_t66_read. cbn [fst snd].
    destruct (size_t r0 >? 0).
    + unfold bind at 1 in H. unfold report_id_to_type in H.
      cbn [report_ids emit set_msg_reads] in H.
      unfold bind at 1 in H. unfold LOG at 1 in H.
      destruct (report_ids w (buf_get b0 0) =? T66).
      * apply bind_Ret_inv in H. destruct H as (_ & w2 & _ & H).
        apply bind_Ret_inv in H. destruct H as (_ & w3 & _ & H).
        apply bind_Ret_inv in H. destruct H as (_ & w4 & _ & H).
        injection H as <- _ _. right. split; reflexivity.
      * left. split; [|reflexivity].
        destruct (report_ids w (buf_get b0 0) =? T6).
        -- apply bind_Ret_inv in H. destruct H as (_ & w2 & _ & H).
           injection H as <- _ _. reflexivity.
        -- injection H as <- _ _. reflexivity.
    + injection H as <- _ _. left. split; reflexivity.
Qed.

(** A drain reads messages in queue order and stops at the first one it
    takes for a T66 message. *)
Lemma drain_messages_inv n :
  forall buf w x b' w',
    drain n buf w = Ret (x, b') w' ->
    report_ids w' = report_ids w
    /\ exists pre,
        forallb (fun rd => negb (is_t66_read T66 w rd)) pre = true
        /\ match x with
           | None => msg_reads w = (pre ++ msg_reads w')%list
           | Some s =>
               exists r b,
                 msg_reads w = (pre ++ (r, b) :: msg_reads w')%list
                 /\ is_t66_read T66 w (r, b) = true
                 /\ s = buf_get b 1
           end.
Proof.
  induction n as [|n IH]; intros buf w x b' w' H; cbn [drain_messages] in H.
  - injection H as <- _ <-. split; [reflexivity|]. exists []. split; reflexivity.
  - apply bind_Ret_inv in H. destruct H as ([x1 b1] & w1 & H1 & H).
    cbn [fst snd] in H.
    destruct (read_one_message_inv _ _ _ _ _ H1) as (I1 & R1).
    destruct x1 as [s1|].
    + injection H as <- _ <-. split; [exact I1|]. exists [].
      split; [reflexivity|].
      destruct (msg_reads w) as [|[r b] rest].
      * destruct R1 as [R1 _]. discriminate.
      * destruct R1 as [-> [[R1 _]|[R1 R2]]]; [discriminate|].
        injection R1 as ->. exists r, b. repeat split; assumption.
    + apply IH in H. destruct H as (I2 & pre & Hq & Hx).
      rewrite (is_t66_read_ids T66 w w1 pre I1) in Hq.
      split; [congruence|].
      destruct (msg_reads w) as [|rd rest].
      * destruct R1 as [_ R1]. exists pre. split; [exact Hq|].
        rewrite R1 in Hx. destruct x as [s|].
        -- destruct Hx as (r & b & Hm & Ht & Hs). exists r, b.
           rewrite (is_t66_read_one_ids w w1 _ I1) in Ht. repeat split; assumption.
        -- exact Hx.
      * destruct R1 as [R1 [[_ R2]|[R2 _]]]; [|discriminate].
        exists (rd :: pre). split; [cbn [forallb]; rewrite R2, Hq; reflexivity|].
        rewrite R1 in Hx. destruct x as [s|].
        -- destruct Hx as (r & b & Hm & Ht & Hs). exists r, b.
           rewrite (is_t66_read_one_ids w w1 _ I1) in Ht.
           rewrite Hm. repeat split; assumption.
        -- rewrite Hx. reflexivity.
Qed.

Lemma poll_loop_inv fuel :
  forall start_time timeout buf w s w',
    poll_loop fuel start_time timeout buf w = Ret (0, s) w' ->
    exists pre r b,
      msg_reads w = (pre ++ (r, b) :: msg_reads w')%list
      /\ forallb (fun rd => negb (is_t66_read T66 w rd)) pre = true
      /\ is_t66_read T66 w (r, b) = true
      /\ s = Some (buf_get b 1).
Proof.
  induction fuel as [|n IH]; intros st to buf w s w' H; [discriminate|].
  cbn [mxt_gr_get_status_loop] in H. unfold bind at 1 in H. unfold time at 1 in H.
  destruct (clock w - st >? to).
  { unfold bind, printf, ret in H. discriminate. }
  apply bind_Ret_inv in H. destruct H as (c & w1 & Hc & H).
  destruct (mxt_get_msg_count_leaves_messages _ _ _ Hc) as (M1 & I1).
  apply bind_Ret_inv in H. destruct H as ([x b] & w2 & Hd & H).
  cbn [fst snd] in H.
  assert (D : report_ids w2 = report_ids w1
              /\ exists pre,
                  forallb (fun rd => negb (is_t66_read T66 w1 rd)) pre = true
                  /\ match x with
                     | None => msg_reads w1 = (pre ++ msg_reads w2)%list
                     | Some s0 =>
                         exists r b0,
                           msg_reads w1 = (pre ++ (r, b0) :: msg_reads w2)%list
                           /\ is_t66_read T66 w1 (r, b0) = true
                           /\ s0 = buf_get b0 1
                     end).
  { destruct (uint16_t c >? 0); [eapply drain_messages_inv, Hd|].
    injection Hd as <- _ <-. split; [reflexivity|]. exists [].
    split; reflexivity. }
  destruct D as (I2 & pre & Hq & Hx).
  rewrite (is_t66_read_ids T66 w w1 pre I1) in Hq. rewrite M1 in Hx.
  destruct x as [state|].
  - injection H as <- <-. destruct Hx as (r & b0 & Hm & Ht & Hs).
    rewrite (is_t66_read_one_ids w w1 _ I1) in Ht.
    exists pre, r, b0. subst state. repeat split; assumption.
  - unfold bind at 1 in H. unfold sleep at 1 in H. apply IH in H.
    destruct H as (pre' & r & b0 & Hm & Hq' & Ht & Hs).
    cbn [msg_reads emit set_clock] in Hm.
    assert (I3 : report_ids (emit (EvSleep 1) (set_clock (clock w2 + 1) w2))
                 = report_ids w) by (cbn; congruence).
    rewrite (is_t66_read_ids T66 w _ pre' I3) in Hq'.
    rewrite (is_t66_read_one_ids w _ _ I3) in Ht.
    exists (pre ++ pre')%list, r, b0.
    rewrite Hx, Hm, <- app_assoc, forallb_app, Hq, Hq'.
    repeat split; assumption.
Qed.

(** X12. A poll that returns 0 has read the queued messages in order up
    to the first one it takes for a T66 message, and no further: the
    state it hands back is the second byte of that message, everything
    read before it was passed over, and everything behind it is still
    queued. *)
Theorem successful_poll_read_first_t66 (fuel : nat) (timeout : Z)
    (w w' : world) (s : option Z) :
  get_status fuel timeout w = Ret (0, s) w' ->
  exists pre r b,
    msg_reads w = (pre ++ (r, b) :: msg_reads w')%list
    /\ forallb (fun rd => negb (is_t66_read T66 w rd)) pre = true
    /\ is_t66_read T66 w (r, b) = true
    /\ s = Some (buf_get b 1).
Proof.
  intros H. unfold mxt_gr_get_status, bind, time in H.
  eapply poll_loop_inv, H.
Qed.

End GrFirstMatch.

(** ** The further properties on the bench *)

Lemma first_t66_message_wins_witness :
  exists w',
    mxt_gr_get_status 66 6 1 GR_TIMEOUT
      (bench [3; 1]
         [t6_msg 16; (3, [7; 1; 2; 0; 0; 0; 0; 0; 0; 0]); t66_msg 68; t66_msg 2])
    = Ret (0, Some 68) w'
    /\ msg_reads w' = [t66_msg 2]
    /\ msg_counts w' = [1]
    /\ stdout (trace w')
       = [t6_state_text 16; "44 "; newline; t66_state_text 68].
Proof.
  destruct (first_t66_message_wins 66 6 0 GR_TIMEOUT
              (bench [3; 1]
                 [t6_msg 16; (3, [7; 1; 2; 0; 0; 0; 0; 0; 0; 0]);
                  t66_msg 68; t66_msg 2])
              3 [1] [t6_msg 16; (3, [7; 1; 2; 0; 0; 0; 0; 0; 0; 0])]
              [t66_msg 2] 2 [9; 68; 0; 0; 0; 0; 0; 0; 0; 0])
    as (w' & H & M & C & _ & _ & O).
  - unfold GR_TIMEOUT. lia.
  - reflexivity.
  - reflexivity.
  - reflexivity.
  - vm_compute. reflexivity.
  - vm_compute. split; [reflexivity|discriminate].
  - reflexivity.
  - exists w'. repeat split; assumption.
Defined.

Lemma oversized_t66_message_overruns_witness :
  exists w',
    mxt_gr_get_status 66 6 1 GR_TIMEOUT (bench [1] [(-1, snd (t66_msg 2))])
    = Undefined w'
    /\ List.length (stdout (trace w')) = 9%nat.
Proof.
  destruct (oversized_t66_message_overruns 66 6 0 GR_TIMEOUT
              (bench [1] [(-1, snd (t66_msg 2))])
              1 [] (-1) (snd (t66_msg 2)) [])
    as (w' & H & O).
  - unfold GR_TIMEOUT. lia.
  - reflexivity.
  - vm_compute. reflexivity.
  - reflexivity.
  - vm_compute. reflexivity.
  - reflexivity.
  - exists w'. split; [exact H|]. rewrite O. reflexivity.
Defined.

Lemma reads_stay_inside_buf_witness :
  in_bounds (run_bench 32 (bench [1; 1; 1] [t66_msg 2; t66_msg 68; t66_msg 32])).
Proof.
  apply (reads_stay_inside_buf 66 6 0 32 GR_TIMEOUT
           (bench [1; 1; 1] [t66_msg 2; t66_msg 68; t66_msg 32])).
  reflexivity.
Defined.

Lemma poll_waits_at_most_witness :
  let w := bench [2] [t6_msg 16; t6_msg 0] in
  let w' := world_of (mxt_gr_get_status 66 6 40 GR_TIMEOUT w) in
  clock w <= clock w' <= clock w + 30 + 1.
Proof.
  intros w w'.
  apply (poll_waits_at_most 66 6 40 GR_TIMEOUT w).
  unfold GR_TIMEOUT. lia.
Defined.


Lemma silent_device_fails_in_prime_witness :
  exists w',
    run_bench 32 (bench [2] [t6_msg 16; t6_msg 128]) = Ret (-1) w'
    /\ writes (trace w') = [([7], 300, 1)]
    /\ clock w' = 1031.
Proof.
  destruct (silent_device_fails_in_prime 66 6 0 32
              (bench [2] [t6_msg 16; t6_msg 128]))
    as (w' & H & W & K & _).
  - lia.
  - simpl. lia.
  - vm_compute. discriminate.
  - simpl. lia.
  - reflexivity.
  - exists w'. repeat split; assumption.
Defined.

Lemma procedure_writes_only_its_commands_witness :
  let w := bench [1; 1; 1] [t66_msg 2; t66_msg 68; t66_msg 32] in
  let w' := world_of (run_bench 1 w) in
  writes (trace w') = golden_ref_commands 300
  /\ last_line w' = "Done" ++ newline.
Proof.
  intros w w'.
  apply (proj2 (procedure_writes_only_its_commands 66 6 0 1 w) 0 w').
  - vm_compute. reflexivity.
  - reflexivity.
Defined.

Lemma successful_poll_read_first_t66_witness :
  let w := bench [3; 1] [t6_msg 16; t66_msg 68; t66_msg 2] in
  let w' := world_of (mxt_gr_get_status 66 6 1 GR_TIMEOUT w) in
  exists pre r b,
    msg_reads w = (pre ++ (r, b) :: msg_reads w')%list
    /\ forallb (fun rd => negb (is_t66_read 66 w rd)) pre = true
    /\ is_t66_read 66 w (r, b) = true
    /\ Some 68 = Some (buf_get b 1).
Proof.
  intros w w'.
  apply (successful_poll_read_first_t66 66 6 1 GR_TIMEOUT w w' (Some 68)).
  vm_compute. reflexivity.
Defined.
